(** * Customer feedback aggregator: the handlers of [main.py] over the
    schema of [models.py].

    The development follows the source file by file.  [models.py] gives
    the two tables, [main.py] the pydantic schemas and the six routes.
    The handlers talk to storage through an ORM session; the session is
    modelled explicitly (pending objects, rows flushed inside the open
    transaction, committed rows) because the import depends on when a
    pending row becomes visible to a query.

    Modelling decisions, each recorded where it is made:
    - A stored [score] is the rational number the double in the [Float]
      column stands for.  The aggregate query and [round] compute on
      binary64 values: every sum and the division round to the nearest
      double, as IEEE 754 prescribes.
    - [database.py] is not part of the sources at hand.  What the handlers
      need from it (whether the session autoflushes, the storage clock) is
      a parameter of the section that holds the handlers.
    - [pd.read_csv] and Python's [float] on text are library code; their
      results are inputs, respectively a parameter.
    - The answer of a route is what the function returns; its encoding as
      JSON is the framework's and outside the model. *)

From Stdlib Require Import List String Ascii Bool Arith ZArith QArith Lia.
From Stdlib Require Import DecimalString Qround Qabs Lqa.
From Stdlib Require Import Floats.SpecFloat.
Import ListNotations.

Local Close Scope Q_scope.
Local Open Scope string_scope.
Local Open Scope list_scope.

(* ===================================================================== *)
(** ** models.py *)
(* ===================================================================== *)

(** [class Product(Base)], table [products]. *)
Module Product.
Record t : Type := mk
  { id : nat;
    product_id : string;          (* unique=True, index=True *)
    name : string;
    created_at : nat }.           (* server_default=func.now() *)
End Product.

(** [class FeedbackEntry(Base)], table [feedback_entries]. *)
Module FeedbackEntry.
Record t : Type := mk
  { id : nat;
    product_id : string;          (* ForeignKey("products.product_id") *)
    score : Q;                    (* Float, nullable=False *)
    comment : option string;
    created_at : nat }.
End FeedbackEntry.

(** The committed contents of the two tables, in insertion order. *)
Record Storage : Type := mkStorage
  { products : list Product.t;
    feedback_entries : list FeedbackEntry.t }.

Definition empty_storage : Storage := mkStorage [] [].

(* ===================================================================== *)
(** ** Binary64 numbers *)
(* ===================================================================== *)

(** A Python [float], a [Float] column: an IEEE 754 binary64 value, with
    its zeros, infinities and NaN. *)
Definition double : Type := spec_float.

(** Addition and division, rounded to the nearest double, ties to even. *)
Definition double_add : double -> double -> double := SFadd 53 1024.

Definition double_div : double -> double -> double := SFdiv 53 1024.

Definition double_of_Z (z : Z) : double :=
  match z with
  | Z0 => S754_zero false
  | Zpos p => S754_finite false p 0
  | Zneg p => S754_finite true p 0
  end.

(** The double nearest to a rational: the value a [Float] column holds
    for a stored number, and what reading a decimal numeral gives. *)
Definition double_of_Q (q : Q) : double :=
  let q' := Qred q in
  double_div (double_of_Z (Qnum q')) (double_of_Z (Zpos (Qden q'))).

Definition double_of_nat (n : nat) : double :=
  double_of_Q (inject_Z (Z.of_nat n)).

(** The rational a finite double stands for (0 for the others). *)
Definition exact_value (x : double) : Q :=
  match x with
  | S754_finite s m e =>
      let v := match e with
               | Z0 => inject_Z (Zpos m)
               | Zpos p => inject_Z (Zpos m * 2 ^ Zpos p)
               | Zneg p => Qmake (Zpos m) (2 ^ p)
               end in
      if s then Qopp v else v
  | _ => (0 # 1)%Q
  end.

(* ===================================================================== *)
(** ** main.py: pydantic schemas *)
(* ===================================================================== *)

Module FeedbackCreate.
Record t : Type := mk
  { product_id : string;
    score : Q;                    (* Field(..., ge=1.0, le=5.0) *)
    comment : option string }.
End FeedbackCreate.

(** [FeedbackResponse] has the fields of a [FeedbackEntry] row and is not
    given a type of its own. *)
Module ProductAverage.
Record t : Type := mk
  { product_id : string;
    average_score : double;
    feedback_count : nat }.
End ProductAverage.

(** A JSON request body before validation: every field may be absent. *)
Record RequestBody : Type := mkBody
  { body_product_id : option string;
    body_score : option Q;
    body_comment : option string }.

(* ===================================================================== *)
(** ** Exceptions and the session monad *)
(* ===================================================================== *)

Inductive Exception : Type :=
  | IntegrityError (msg : string)     (* sqlalchemy.exc.IntegrityError *)
  | ValueError (msg : string)         (* float() on text *)
  | OSError (msg : string)            (* pd.read_csv: missing or unreadable *)
  | ParserError (msg : string)        (* pd.read_csv: malformed file *)
  | InvalidRequestError (msg : string)(* db.refresh on a vanished row *)
  | HTTPException (status_code : nat) (detail : string).

(** [str(e)]. *)
Definition str (e : Exception) : string :=
  match e with
  | IntegrityError m | ValueError m | OSError m | ParserError m
  | InvalidRequestError m => m
  | HTTPException _ d => d
  end.

(** An object handed to [db.add] that has no row yet: the primary key and
    [created_at] are filled in by storage when the INSERT runs. *)
Record NewProduct : Type := mkNewProduct
  { np_product_id : string;
    np_name : string }.

Record NewFeedback : Type := mkNewFeedback
  { nf_product_id : string;
    nf_score : Q;
    nf_comment : option string }.

(** One ORM session on one connection.
    - [storage]: the committed tables, shared with every other session;
    - [flushed_*]: rows this session has INSERTed inside its open
      transaction (visible to its own queries, not committed);
    - [new_*]: objects passed to [db.add] and not yet flushed, per mapper
      in the order they were added;
    - [commits]: the committed tables as each completed [db.commit()] of
      this session left them, oldest first. *)
Record Session : Type := mkSession
  { storage : Storage;
    flushed_products : list Product.t;
    flushed_feedback : list FeedbackEntry.t;
    new_products : list NewProduct;
    new_feedback : list NewFeedback;
    commits : list Storage }.

Definition new_session (db : Storage) : Session :=
  mkSession db [] [] [] [] [].

(** A computation in a session: it may raise, and it leaves a session
    behind either way (a Python exception does not undo earlier effects). *)
Definition M (A : Type) : Type := Session -> (Exception + A) * Session.

Definition ret {A} (a : A) : M A := fun s => (inr a, s).

Definition bind {A B} (m : M A) (k : A -> M B) : M B :=
  fun s =>
    match m s with
    | (inl e, s') => (inl e, s')
    | (inr a, s') => k a s'
    end.

Definition raise {A} (e : Exception) : M A := fun s => (inl e, s).

(** [try: body  except Exception as e: handler e]. *)
Definition try_except {A} (body : M A) (handler : Exception -> M A) : M A :=
  fun s =>
    match body s with
    | (inl e, s') => handler e s'
    | (inr a, s') => (inr a, s')
    end.

Declare Scope session_scope.
Delimit Scope session_scope with session.
Notation "x <- m ;; k" := (bind m (fun x => k))
  (at level 61, m at next level, right associativity) : session_scope.
Notation "m ;; k" := (bind m (fun _ => k))
  (at level 61, right associativity) : session_scope.
Local Open Scope session_scope.

(** [for _, row in df.iterrows(): acc = body(row, acc)]. *)
Fixpoint iterrows {R A} (df : list R) (body : R -> A -> M A) (acc : A) : M A :=
  match df with
  | [] => ret acc
  | row :: rest => acc' <- body row acc ;; iterrows rest body acc'
  end.

(* ===================================================================== *)
(** ** Storage primitives *)
(* ===================================================================== *)

(** The rows a query of this session sees: committed rows, then the rows
    of its own open transaction. *)
Definition visible_products (s : Session) : list Product.t :=
  products (storage s) ++ flushed_products s.

Definition visible_feedback (s : Session) : list FeedbackEntry.t :=
  feedback_entries (storage s) ++ flushed_feedback s.

(** Integer primary key: one more than the largest key in the table. *)
Definition next_id (ids : list nat) : nat := S (fold_right Nat.max 0 ids).

Definition has_product_id (pid : string) (table : list Product.t) : bool :=
  existsb (fun p => String.eqb (Product.product_id p) pid) table.

(** The driver's one-line message for a violation of the unique index of
    [products.product_id].  (The ORM wraps it together with the statement
    and its parameters; the model keeps the line that names the cause.) *)
Definition unique_violation : string :=
  "UNIQUE constraint failed: products.product_id".

(** What the client receives. *)
Inductive Response (A : Type) : Type :=
  | OK (body : A)                                       (* 200 *)
  | ErrorResponse (status_code : nat) (detail : string) (* HTTPException *)
  | ValidationError (fields : list string)              (* 422 *)
  | InternalServerError (e : Exception).                (* 500 *)

Arguments OK {A} body.
Arguments ErrorResponse {A} status_code detail.
Arguments ValidationError {A} fields.
Arguments InternalServerError {A} e.

Section Handlers.

(** From [database.py], which is not among the sources: whether the
    session factory leaves [autoflush] on. *)
Variable autoflush : bool.

(** The storage clock read by [server_default=func.now()] during the
    request. *)
Variable now : nat.

(** Python's [float] on a text cell: the number, or the [ValueError]. *)
Variable float_of_text : string -> Exception + Q.

(** INSERT INTO products: the unique index rejects a second row with the
    same [product_id]. *)
Definition insert_product (table : list Product.t) (p : NewProduct)
  : Exception + Product.t :=
  if has_product_id (np_product_id p) table
  then inl (IntegrityError unique_violation)
  else inr (Product.mk (next_id (map Product.id table))
                       (np_product_id p) (np_name p) now).

(** INSERT INTO feedback_entries.  The foreign key is declared but the
    handlers never insert a row whose product is absent, and storage
    accepts such a row when it arrives by another way. *)
Definition insert_feedback (table : list FeedbackEntry.t) (f : NewFeedback)
  : FeedbackEntry.t :=
  FeedbackEntry.mk (next_id (map FeedbackEntry.id table))
                   (nf_product_id f) (nf_score f) (nf_comment f) now.

(** Insert pending products one after the other; [done] collects the
    rows inserted so far (newest last). *)
Fixpoint insert_products (table : list Product.t) (done : list Product.t)
         (ps : list NewProduct) : Exception + list Product.t :=
  match ps with
  | [] => inr done
  | p :: rest =>
      match insert_product (table ++ done) p with
      | inl e => inl e
      | inr row => insert_products table (done ++ [row]) rest
      end
  end.

Fixpoint insert_feedbacks (table : list FeedbackEntry.t)
         (done : list FeedbackEntry.t) (fs : list NewFeedback)
  : list FeedbackEntry.t :=
  match fs with
  | [] => done
  | f :: rest =>
      insert_feedbacks table (done ++ [insert_feedback (table ++ done) f]) rest
  end.

(** [Session.flush]: the unit of work emits the INSERTs of [products]
    before those of [feedback_entries] (the relationship orders the
    mappers), each mapper in [db.add] order.  A failing INSERT rolls the
    transaction back and the exception propagates.  The result is the
    list of feedback rows inserted by this flush. *)
Definition flush : M (list FeedbackEntry.t) := fun s =>
  match insert_products (visible_products s) [] (new_products s) with
  | inl e =>
      (inl e, mkSession (storage s) [] [] [] [] (commits s))
  | inr ps =>
      let fs := insert_feedbacks (visible_feedback s) [] (new_feedback s) in
      (inr fs,
       mkSession (storage s)
                 (flushed_products s ++ ps) (flushed_feedback s ++ fs)
                 [] [] (commits s))
  end.

(** What a query does before it runs. *)
Definition before_query : M unit :=
  if autoflush then (_ <- flush ;; ret tt) else ret tt.

(** [db.add(obj)]. *)
Definition add_product (p : NewProduct) : M unit := fun s =>
  (inr tt,
   mkSession (storage s) (flushed_products s) (flushed_feedback s)
             (new_products s ++ [p]) (new_feedback s) (commits s)).

Definition add_feedback (f : NewFeedback) : M unit := fun s =>
  (inr tt,
   mkSession (storage s) (flushed_products s) (flushed_feedback s)
             (new_products s) (new_feedback s ++ [f]) (commits s)).

(** [db.commit()]: flush, then make the transaction's rows permanent. *)
Definition commit : M (list FeedbackEntry.t) :=
  fs <- flush ;;
  fun s =>
    let db := mkStorage (visible_products s) (visible_feedback s) in
    (inr fs,
     mkSession db [] [] (new_products s) (new_feedback s) (commits s ++ [db])).

(** [db.query(Product).filter(Product.product_id == pid).first()]. *)
Definition query_product_first (pid : string) : M (option Product.t) :=
  before_query ;;
  fun s =>
    (inr (find (fun p => String.eqb (Product.product_id p) pid)
               (visible_products s)), s).

(** [db.query(FeedbackEntry).all()]. *)
Definition query_feedback_all : M (list FeedbackEntry.t) :=
  before_query ;;
  fun s => (inr (visible_feedback s), s).

(** [db.query(FeedbackEntry).filter(FeedbackEntry.product_id == pid).all()]. *)
Definition query_feedback_by (pid : string) : M (list FeedbackEntry.t) :=
  before_query ;;
  fun s =>
    (inr (filter (fun f => String.eqb (FeedbackEntry.product_id f) pid)
                 (visible_feedback s)), s).

(** [db.refresh(obj)]: read the row of [obj] again by primary key. *)
Definition refresh (pk : nat) : M FeedbackEntry.t := fun s =>
  match find (fun f => Nat.eqb (FeedbackEntry.id f) pk) (visible_feedback s) with
  | Some row => (inr row, s)
  | None => (inl (InvalidRequestError "Could not refresh instance"), s)
  end.

(* ===================================================================== *)
(** ** main.py: routes *)
(* ===================================================================== *)

(** [home]. *)
Definition home : M (string * string) :=
  ret ("Feedback API is running!", "/docs").

(** The primary key the flush gave to the object added last. *)
Definition primary_key_of_last (rows : list FeedbackEntry.t) : nat :=
  match rev rows with
  | row :: _ => FeedbackEntry.id row
  | [] => 0
  end.

(** [create_feedback], split where the handler first reads storage so
    that another request can be placed between the two halves. *)
Definition create_feedback_lookup (feedback : FeedbackCreate.t)
  : M (option Product.t) :=
  query_product_first (FeedbackCreate.product_id feedback).

Definition create_feedback_write (feedback : FeedbackCreate.t)
           (product : option Product.t) : M FeedbackEntry.t :=
  match product with
  | None =>
      add_product
        (mkNewProduct (FeedbackCreate.product_id feedback)
                      ("Product " ++ FeedbackCreate.product_id feedback)) ;;
      _ <- commit ;; ret tt
  | Some _ => ret tt
  end ;;
  add_feedback
    (mkNewFeedback (FeedbackCreate.product_id feedback)
                   (FeedbackCreate.score feedback)
                   (FeedbackCreate.comment feedback)) ;;
  rows <- commit ;;
  refresh (primary_key_of_last rows).

Definition create_feedback (feedback : FeedbackCreate.t) : M FeedbackEntry.t :=
  product <- create_feedback_lookup feedback ;;
  create_feedback_write feedback product.

(** [get_all_feedback]. *)
Definition get_all_feedback : M (list FeedbackEntry.t) :=
  feedback <- query_feedback_all ;;
  ret feedback.

(** [get_feedback_by_product]. *)
Definition get_feedback_by_product (product_id : string)
  : M (list FeedbackEntry.t) :=
  feedback <- query_feedback_by product_id ;;
  match feedback with
  | [] => raise (HTTPException 404 "No feedback found for this product")
  | _ :: _ => ret feedback
  end.


(** [get_product_averages].  The aggregate query is evaluated the way a
    hash aggregate does: one pass over the rows, one accumulator
    [(sum, count)] per [product_id], each sum a double that starts at 0.0
    and is rounded at every addition; groups come out in the order in
    which their first row was met (SQL leaves the order open). *)
Fixpoint accumulate (pid : string) (x : double)
         (groups : list (string * (double * nat)))
  : list (string * (double * nat)) :=
  match groups with
  | [] => [(pid, (double_add (S754_zero false) x, 1))]
  | (k, (total, n)) :: rest =>
      if String.eqb k pid
      then (k, (double_add total x, S n)) :: rest
      else (k, (total, n)) :: accumulate pid x rest
  end.

Definition group_by_product_id (rows : list FeedbackEntry.t)
  : list (string * (double * nat)) :=
  fold_left
    (fun groups f =>
       accumulate (FeedbackEntry.product_id f)
                  (double_of_Q (FeedbackEntry.score f)) groups)
    rows [].

(** The result rows [(product_id, avg(score), count(id))]. *)
Definition query_averages : M (list (string * double * nat)) :=
  before_query ;;
  fun s =>
    (inr (map (fun g : string * (double * nat) =>
                 let '(k, (total, n)) := g in
                 (k, double_div total (double_of_nat n), n))
              (group_by_product_id (visible_feedback s))), s).

(** Rounding a rational to an integer, a tie going to the even
    neighbour. *)
Definition round_half_even (q : Q) : Z :=
  let f := Qfloor q in
  match Qcompare (Qminus q (inject_Z f)) (1 # 2) with
  | Lt => f
  | Gt => (f + 1)%Z
  | Eq => if Z.even f then f else (f + 1)%Z
  end.

(** Python's [round(x, ndigits)] on a float: the decimal with [ndigits]
    places nearest to the exact value of [x] (a tie going to the even
    neighbour), read back as a double; a result of zero keeps the sign of
    [x]; zeros, infinities and NaN are returned as they are. *)
Definition round (x : double) (ndigits : nat) : double :=
  match x with
  | S754_finite s _ _ =>
      let scale := inject_Z (10 ^ Z.of_nat ndigits) in
      match round_half_even (Qmult (exact_value x) scale) with
      | Z0 => S754_zero s
      | z => double_of_Q (Qdiv (inject_Z z) scale)
      end
  | _ => x
  end.

Definition get_product_averages : M (list ProductAverage.t) :=
  results <- query_averages ;;
  ret (map (fun result : string * double * nat =>
              let '(product_id, average_score, feedback_count) := result in
              ProductAverage.mk product_id (round average_score 2) feedback_count)
           results).

(** A cell of the [score] column as [pd.read_csv] delivers it: a number
    when the whole column parsed as numeric, text otherwise.  An empty
    cell (NaN) is outside the model. *)
Inductive Cell : Type :=
  | NumCell (q : Q)
  | TextCell (s : string).

(** One row of the data frame (columns [product_id], [score], [comment]);
    an empty [comment] cell is [None]. *)
Record Row : Type := mkRow
  { row_product_id : string;
    row_score : Cell;
    row_comment : option string }.

(** [float(row['score'])]. *)
Definition float (c : Cell) : M Q :=
  match c with
  | NumCell q => ret q
  | TextCell s =>
      match float_of_text s with
      | inl e => raise e
      | inr q => ret q
      end
  end.

(** [pd.read_csv("feedback.csv")]: the file system's answer is an input. *)
Definition read_csv (file : Exception + list Row) : M (list Row) :=
  match file with
  | inl e => raise e
  | inr df => ret df
  end.

(** [str(n)] for a non-negative integer. *)
Definition str_of_nat (n : nat) : string :=
  NilEmpty.string_of_uint (Nat.to_uint n).

(** The body of the [for] loop of [upload_csv_data]. *)
Definition upload_row (row : Row) (created_count : nat) : M nat :=
  product <- query_product_first (row_product_id row) ;;
  match product with
  | None =>
      add_product (mkNewProduct (row_product_id row)
                                ("Product " ++ row_product_id row))
  | Some _ => ret tt
  end ;;
  score <- float (row_score row) ;;
  add_feedback (mkNewFeedback (row_product_id row) score (row_comment row)) ;;
  ret (created_count + 1).

(** [upload_csv_data]. *)
Definition upload_csv_data (file : Exception + list Row) : M string :=
  try_except
    (df <- read_csv file ;;
     created_count <- iterrows df upload_row 0 ;;
     _ <- commit ;;
     ret ("Successfully imported " ++ str_of_nat created_count
            ++ " feedback entries")%string)
    (fun e => raise (HTTPException 400 ("Error processing CSV: " ++ str e))).

(* ===================================================================== *)
(** ** The framework around a route *)
(* ===================================================================== *)

(** One request: the dependency hands the route a session of its own on
    the current storage and closes it afterwards, which drops whatever
    the route left uncommitted. *)
Definition serve {A} (route : M A) (db : Storage) : Response A * Storage :=
  let '(r, s) := route (new_session db) in
  (match r with
   | inr a => OK a
   | inl (HTTPException status_code detail) => ErrorResponse status_code detail
   | inl e => InternalServerError e
   end,
   storage s).

(** Validation of the body against [FeedbackCreate]: [product_id] and
    [score] are required, [score] must satisfy [ge=1.0] and [le=5.0]. *)
Definition validate (body : RequestBody) : list string + FeedbackCreate.t :=
  match body_product_id body, body_score body with
  | Some pid, Some sc =>
      if Qle_bool 1 sc && Qle_bool sc 5
      then inr (FeedbackCreate.mk pid sc (body_comment body))
      else inl ["score"]
  | Some _, None => inl ["score"]
  | None, Some sc =>
      if Qle_bool 1 sc && Qle_bool sc 5
      then inl ["product_id"]
      else inl ["product_id"; "score"]
  | None, None => inl ["product_id"; "score"]
  end.

(** [POST /feedback/]: the body is validated before the route runs. *)
Definition post_feedback (body : RequestBody) (db : Storage)
  : Response FeedbackEntry.t * Storage :=
  match validate body with
  | inl fields => (ValidationError fields, db)
  | inr feedback => serve (create_feedback feedback) db
  end.

(** Another request commits while this session is between two
    statements: the committed tables change under it. *)
Definition meanwhile (other : Storage -> Storage) : M unit := fun s =>
  (inr tt,
   mkSession (other (storage s)) (flushed_products s) (flushed_feedback s)
             (new_products s) (new_feedback s) (commits s)).

(** [create_feedback] with another request served between its lookup and
    its first write. *)
Definition create_feedback_raced (feedback : FeedbackCreate.t)
           (other : Storage -> Storage) : M FeedbackEntry.t :=
  product <- create_feedback_lookup feedback ;;
  meanwhile other ;;
  create_feedback_write feedback product.

End Handlers.

(* ===================================================================== *)
(** ** Vocabulary of the statements *)
(* ===================================================================== *)

(** What a computation may touch without being observable by another
    request: everything except the committed tables and the commit log. *)
Definition same_committed (s s' : Session) : Prop :=
  storage s' = storage s /\ commits s' = commits s.

(** The rows of the feedback table that carry a given [product_id]. *)
Definition feedback_of (product_id : string) (rows : list FeedbackEntry.t)
  : list FeedbackEntry.t :=
  filter (fun f => String.eqb (FeedbackEntry.product_id f) product_id) rows.

(** The closed range of [Field(..., ge=1.0, le=5.0)]. *)
Definition in_range (sc : Q) : bool := Qle_bool 1 sc && Qle_bool sc 5.







(** [float] on a cell, as a value: the number or the exception. *)
Definition float_result (float_of_text : string -> Exception + Q) (c : Cell)
  : Exception + Q :=
  match c with
  | NumCell q => inr q
  | TextCell s => float_of_text s
  end.

(** The feedback object the loop body builds from a row and its score. *)
Definition feedback_object (row : Row) (score : Q) : NewFeedback :=
  mkNewFeedback (row_product_id row) score (row_comment row).

(** The feedback objects of a whole data frame, or the exception of the
    first row whose score does not coerce. *)
Fixpoint coerce_rows (float_of_text : string -> Exception + Q) (df : list Row)
  : Exception + list NewFeedback :=
  match df with
  | [] => inr []
  | row :: rest =>
      match float_result float_of_text (row_score row) with
      | inl e => inl e
      | inr q =>
          match coerce_rows float_of_text rest with
          | inl e => inl e
          | inr fs => inr (feedback_object row q :: fs)
          end
      end
  end.

(** The feedback table as the open transaction will have it once the
    pending feedback objects are flushed. *)
Definition feedback_after_flush (now : nat) (s : Session) : list FeedbackEntry.t :=
  visible_feedback s
  ++ insert_feedbacks now (visible_feedback s) [] (new_feedback s).

(** The pending products can be inserted: the unique index accepts them. *)
Definition flushable (now : nat) (s : Session) : Prop :=
  exists ps, insert_products now (visible_products s) [] (new_products s) = inr ps.

(** The product ids of a data frame that have no row in [table]. *)
Definition unknown_product_ids (table : list Product.t) (df : list Row)
  : list string :=
  filter (fun pid => negb (has_product_id pid table)) (map row_product_id df).

(** The product objects the loop stages when no query flushes: one per
    row whose product is unknown to storage. *)
Definition staged_without_flush (table : list Product.t) (df : list Row)
  : list NewProduct :=
  map (fun pid => mkNewProduct pid ("Product " ++ pid))
      (unknown_product_ids table df).

(** At most one Product row per [product_id]. *)
Definition unique_product_ids (db : Storage) : Prop :=
  NoDup (map Product.product_id (products db)).

(** The text of the success message. *)
Definition imported_message (n : nat) : string :=
  "Successfully imported " ++ str_of_nat n ++ " feedback entries".

(** The products table once the pending products are flushed, when the
    unique index accepts them. *)
Definition flushes_to (now : nat) (s : Session) (table : list Product.t) : Prop :=
  exists ps,
    insert_products now (visible_products s) [] (new_products s) = inr ps
    /\ table = visible_products s ++ ps.

(** Insert-if-absent, row by row: what the products table becomes when
    every lookup sees the products staged before it. *)
Definition upsert_product (now : nat) (table : list Product.t) (row : Row)
  : list Product.t :=
  if has_product_id (row_product_id row) table
  then table
  else table
       ++ [Product.mk (next_id (map Product.id table)) (row_product_id row)
                      ("Product " ++ row_product_id row) now].

Definition upsert_products (now : nat) (table : list Product.t) (df : list Row)
  : list Product.t :=
  fold_left (upsert_product now) df table.

(** The detail of the 400 answer of [upload_csv_data]. *)
Definition csv_error_detail (e : Exception) : string :=
  "Error processing CSV: " ++ str e.

(** A feedback row that comes from a data row: same product id, the
    row's score coerced, the row's comment, stamped by the storage clock. *)
Definition imported_from (now : nat) (float_of_text : string -> Exception + Q)
           (row : Row) (entry : FeedbackEntry.t) : Prop :=
  FeedbackEntry.product_id entry = row_product_id row
  /\ float_result float_of_text (row_score row) = inr (FeedbackEntry.score entry)
  /\ FeedbackEntry.comment entry = row_comment row
  /\ FeedbackEntry.created_at entry = now.

(** The score of a data row coerces. *)
Definition coercible (float_of_text : string -> Exception + Q) (row : Row) : Prop :=
  exists q, float_result float_of_text (row_score row) = inr q.

(** Every feedback row names a product that has a Product row. *)
Definition referential_integrity (db : Storage) : Prop :=
  forall f, In f (feedback_entries db) ->
            In (FeedbackEntry.product_id f)
               (map Product.product_id (products db)).

(** No primary key occurs twice in either table. *)
Definition distinct_primary_keys (db : Storage) : Prop :=
  NoDup (map Product.id (products db))
  /\ NoDup (map FeedbackEntry.id (feedback_entries db)).

(** Every stored score lies in the range the API accepts. *)
Definition scores_in_range (db : Storage) : Prop :=
  forall f, In f (feedback_entries db) ->
            (1 <= FeedbackEntry.score f /\ FeedbackEntry.score f <= 5)%Q.

(** A product row as the handlers create it: named after its id, stamped
    by the storage clock. *)
Definition auto_created (now : nat) (p : Product.t) : Prop :=
  Product.name p = ("Product " ++ Product.product_id p)%string
  /\ Product.created_at p = now.

(** The feedback row [create_feedback] stores for a request. *)
Definition feedback_row (now : nat) (feedback : FeedbackCreate.t) (db : Storage)
  : FeedbackEntry.t :=
  FeedbackEntry.mk (next_id (map FeedbackEntry.id (feedback_entries db)))
                   (FeedbackCreate.product_id feedback)
                   (FeedbackCreate.score feedback)
                   (FeedbackCreate.comment feedback) now.

(** The product row [create_feedback] stores for a product id it does not
    find. *)
Definition product_row (now : nat) (product_id : string) (db : Storage)
  : Product.t :=
  Product.mk (next_id (map Product.id (products db)))
             product_id ("Product " ++ product_id) now.


(** What an import adds to the products table: rows for exactly the
    unknown product ids of the frame, one each, auto-created, with fresh
    primary keys. *)
Definition created_for (now : nat) (table : list Product.t) (df : list Row)
           (added : list Product.t) : Prop :=
  NoDup (map Product.product_id added)
  /\ (forall pid, In pid (map Product.product_id added)
                  <-> In pid (unknown_product_ids table df))
  /\ Forall (auto_created now) added
  /\ (NoDup (map Product.id table) -> NoDup (map Product.id (table ++ added))).

(* ===================================================================== *)
(** ** Basic facts about the session primitives *)
(* ===================================================================== *)

Lemma same_committed_refl s : same_committed s s.
Proof. split; reflexivity. Qed.

Lemma same_committed_trans s1 s2 s3 :
  same_committed s1 s2 -> same_committed s2 s3 -> same_committed s1 s3.
Proof. intros [A B] [C D]; split; congruence. Qed.

Lemma flush_same_committed now s : same_committed s (snd (flush now s)).
Proof.
  unfold flush.
  destruct (insert_products now (visible_products s) [] (new_products s));
    split; reflexivity.
Qed.

Lemma before_query_same_committed autoflush now s :
  same_committed s (snd (before_query autoflush now s)).
Proof.
  unfold before_query. destruct autoflush; [|apply same_committed_refl].
  unfold bind. pose proof (flush_same_committed now s) as H.
  destruct (flush now s) as [[e|fs] s']; exact H.
Qed.

(** On a session that holds nothing pending, a flush is a no-op. *)
Lemma flush_fresh now db :
  flush now (new_session db) = (inr [], new_session db).
Proof. reflexivity. Qed.

Lemma before_query_fresh autoflush now db :
  before_query autoflush now (new_session db) = (inr tt, new_session db).
Proof. destruct autoflush; reflexivity. Qed.

(** Sequencing keeps the committed tables when both parts do. *)
Lemma bind_same_committed {A B} (m : M A) (k : A -> M B) s :
  same_committed s (snd (m s)) ->
  (forall a s', same_committed s' (snd (k a s'))) ->
  same_committed s (snd (bind m k s)).
Proof.
  intros Hm Hk. unfold bind. destruct (m s) as [[e|a] s']; simpl in *.
  - exact Hm.
  - eapply same_committed_trans; [exact Hm|apply Hk].
Qed.

Lemma filter_nil_iff {A} (f : A -> bool) (l : list A) :
  filter f l = [] <-> forall x, In x l -> f x = false.
Proof.
  induction l as [|a l IH]; simpl.
  - split; [intros _ x []|reflexivity].
  - destruct (f a) eqn:E.
    + split; [discriminate|]. intros H. rewrite (H a) in E by (left; reflexivity).
      discriminate.
    + rewrite IH. split.
      * intros H x [<-|Hx]; [exact E|apply H, Hx].
      * intros H x Hx. apply H. right. exact Hx.
Qed.

(* ===================================================================== *)
(** ** The read routes *)
(* ===================================================================== *)

Section ReadRoutes.

Variable autoflush : bool.
Variable now : nat.

Lemma home_session s : home s = (inr ("Feedback API is running!", "/docs"), s).
Proof. reflexivity. Qed.

Lemma query_feedback_all_same_committed s :
  same_committed s (snd (query_feedback_all autoflush now s)).
Proof.
  apply bind_same_committed; [apply before_query_same_committed|].
  intros; apply same_committed_refl.
Qed.

Lemma query_feedback_by_same_committed pid s :
  same_committed s (snd (query_feedback_by autoflush now pid s)).
Proof.
  apply bind_same_committed; [apply before_query_same_committed|].
  intros; apply same_committed_refl.
Qed.

Lemma query_averages_same_committed s :
  same_committed s (snd (query_averages autoflush now s)).
Proof.
  apply bind_same_committed; [apply before_query_same_committed|].
  intros; apply same_committed_refl.
Qed.

Lemma get_all_feedback_same_committed s :
  same_committed s (snd (get_all_feedback autoflush now s)).
Proof.
  apply bind_same_committed; [apply query_feedback_all_same_committed|].
  intros; apply same_committed_refl.
Qed.

Lemma get_feedback_by_product_same_committed product_id s :
  same_committed s (snd (get_feedback_by_product autoflush now product_id s)).
Proof.
  apply bind_same_committed; [apply query_feedback_by_same_committed|].
  intros [|f fs] s'; apply same_committed_refl.
Qed.

Lemma get_product_averages_same_committed s :
  same_committed s (snd (get_product_averages autoflush now s)).
Proof.
  apply bind_same_committed; [apply query_averages_same_committed|].
  intros; apply same_committed_refl.
Qed.

End ReadRoutes.

(** C9.  The four read routes leave storage as they find it.  In whatever
    state the session is, the committed tables and the commit log are the
    same after the route as before it, whether the route returns or
    raises; and a request served on a session of its own hands back the
    storage it was given. *)
Theorem read_routes_leave_storage_unchanged :
  forall (autoflush : bool) (now : nat) (product_id : string),
    (forall s : Session,
        same_committed s (snd (home s))
        /\ same_committed s (snd (get_all_feedback autoflush now s))
        /\ same_committed s (snd (get_product_averages autoflush now s))
        /\ same_committed s
             (snd (get_feedback_by_product autoflush now product_id s)))
    /\ (forall db : Storage,
          snd (home (new_session db)) = new_session db
          /\ snd (get_all_feedback autoflush now (new_session db)) = new_session db
          /\ snd (get_product_averages autoflush now (new_session db))
             = new_session db
          /\ snd (get_feedback_by_product autoflush now product_id (new_session db))
             = new_session db)
    /\ (forall db : Storage,
          snd (serve home db) = db
          /\ snd (serve (get_all_feedback autoflush now) db) = db
          /\ snd (serve (get_product_averages autoflush now) db) = db
          /\ snd (serve (get_feedback_by_product autoflush now product_id) db) = db).
Proof.
  intros autoflush now product_id.
  assert (Fresh : forall db : Storage,
          snd (home (new_session db)) = new_session db
          /\ snd (get_all_feedback autoflush now (new_session db)) = new_session db
          /\ snd (get_product_averages autoflush now (new_session db))
             = new_session db
          /\ snd (get_feedback_by_product autoflush now product_id (new_session db))
             = new_session db).
  { intros db. repeat split.
    - unfold get_all_feedback, query_feedback_all, bind.
      rewrite before_query_fresh. reflexivity.
    - unfold get_product_averages, query_averages, bind.
      rewrite before_query_fresh. reflexivity.
    - unfold get_feedback_by_product, query_feedback_by, bind.
      rewrite before_query_fresh.
      destruct (filter _ (visible_feedback (new_session db))); reflexivity. }
  split; [|split].
  - intros s. repeat split;
      try apply (proj1 (get_all_feedback_same_committed autoflush now s));
      try apply (proj2 (get_all_feedback_same_committed autoflush now s));
      try apply (proj1 (get_product_averages_same_committed autoflush now s));
      try apply (proj2 (get_product_averages_same_committed autoflush now s));
      try apply (proj1 (get_feedback_by_product_same_committed autoflush now product_id s));
      try apply (proj2 (get_feedback_by_product_same_committed autoflush now product_id s)).
  - exact Fresh.
  - intros db. destruct (Fresh db) as (H1 & H2 & H3 & H4).
    unfold serve. repeat split.
    + destruct (get_all_feedback autoflush now (new_session db)) as [r s'].
      simpl in H2. subst s'. reflexivity.
    + destruct (get_product_averages autoflush now (new_session db)) as [r s'].
      simpl in H3. subst s'. reflexivity.
    + destruct (get_feedback_by_product autoflush now product_id (new_session db))
        as [r s'].
      simpl in H4. subst s'. reflexivity.
Qed.

Lemma feedback_of_In product_id rows f :
  In f (feedback_of product_id rows)
  <-> In f rows /\ FeedbackEntry.product_id f = product_id.
Proof.
  unfold feedback_of. rewrite filter_In, String.eqb_eq. reflexivity.
Qed.

Lemma get_feedback_by_product_fresh autoflush now product_id db :
  get_feedback_by_product autoflush now product_id (new_session db)
  = (match feedback_of product_id (feedback_entries db) with
     | [] => inl (HTTPException 404 "No feedback found for this product")
     | _ :: _ => inr (feedback_of product_id (feedback_entries db))
     end, new_session db).
Proof.
  unfold get_feedback_by_product, query_feedback_by, bind.
  rewrite before_query_fresh. unfold visible_feedback. simpl.
  rewrite app_nil_r. fold (feedback_of product_id (feedback_entries db)).
  destruct (feedback_of product_id (feedback_entries db)); reflexivity.
Qed.

(** C5.  [get_feedback_by_product] answers with exactly the feedback rows
    whose [product_id] equals the path parameter, in table order; it
    answers 404 with the fixed detail if and only if there is no such row,
    whatever the products table holds, and never with an empty array. *)
Theorem get_feedback_by_product_rows_or_404 :
  forall (autoflush : bool) (now : nat) (product_id : string) (db : Storage),
    let matching := feedback_of product_id (feedback_entries db) in
    let answer := serve (get_feedback_by_product autoflush now product_id) db in
    (forall f, In f matching
               <-> In f (feedback_entries db)
                   /\ FeedbackEntry.product_id f = product_id)
    /\ answer
       = (match matching with
          | [] => ErrorResponse 404 "No feedback found for this product"
          | _ :: _ => OK matching
          end, db)
    /\ (fst answer = ErrorResponse 404 "No feedback found for this product"
        <-> matching = [])
    /\ (fst answer = OK matching <-> matching <> [])
    /\ fst answer <> OK []
    /\ (forall (ps : list Product.t) (fs : list FeedbackEntry.t),
           fst (serve (get_feedback_by_product autoflush now product_id)
                      (mkStorage ps fs))
           = fst (serve (get_feedback_by_product autoflush now product_id)
                        (mkStorage [] fs))).
Proof.
  intros autoflush now product_id db matching answer.
  assert (E : forall db', serve (get_feedback_by_product autoflush now product_id) db'
              = (match feedback_of product_id (feedback_entries db') with
                 | [] => ErrorResponse 404 "No feedback found for this product"
                 | _ :: _ => OK (feedback_of product_id (feedback_entries db'))
                 end, db')).
  { intros db'. unfold serve. rewrite get_feedback_by_product_fresh.
    destruct (feedback_of product_id (feedback_entries db')); reflexivity. }
  split; [intros f; apply feedback_of_In|].
  split; [apply E|].
  unfold answer. rewrite E. fold matching. simpl.
  repeat split.
  - destruct matching; [reflexivity|discriminate].
  - intros ->. reflexivity.
  - destruct matching; [discriminate|]. intros _; discriminate.
  - destruct matching; [intros H; contradiction H; reflexivity|reflexivity].
  - destruct matching; discriminate.
  - intros ps fs. rewrite !E. reflexivity.
Qed.

(* ===================================================================== *)
(** ** Validation of the request body *)
(* ===================================================================== *)

Lemma in_range_iff sc : in_range sc = true <-> (1 <= sc /\ sc <= 5)%Q.
Proof.
  unfold in_range. rewrite andb_true_iff, !Qle_bool_iff. reflexivity.
Qed.

Lemma validate_accepts_iff body :
  (exists fb, validate body = inr fb)
  <-> (exists pid sc,
          body_product_id body = Some pid /\ body_score body = Some sc
          /\ (1 <= sc)%Q /\ (sc <= 5)%Q).
Proof.
  unfold validate. fold (in_range).
  destruct (body_product_id body) as [pid|], (body_score body) as [sc|].
  - change (Qle_bool 1 sc && Qle_bool sc 5) with (in_range sc).
    destruct (in_range sc) eqn:E.
    + split; [intros _|intros _; eexists; reflexivity].
      apply in_range_iff in E. exists pid, sc. tauto.
    + split; [intros [fb H]; discriminate|].
      intros (pid' & sc' & _ & Hs & H1 & H2). inversion Hs; subst sc'.
      assert (in_range sc = true) by (apply in_range_iff; tauto). congruence.
  - split; [intros [fb H]; discriminate|intros (? & ? & _ & H & _); discriminate].
  - split.
    + change (Qle_bool 1 sc && Qle_bool sc 5) with (in_range sc).
      destruct (in_range sc); intros [fb H]; discriminate.
    + intros (? & ? & H & _); discriminate.
  - split; [intros [fb H]; discriminate|intros (? & ? & H & _); discriminate].
Qed.

Lemma validate_accepted_fields body fb :
  validate body = inr fb ->
  body_product_id body = Some (FeedbackCreate.product_id fb)
  /\ body_score body = Some (FeedbackCreate.score fb)
  /\ body_comment body = FeedbackCreate.comment fb.
Proof.
  unfold validate.
  destruct (body_product_id body) as [pid|], (body_score body) as [sc|];
    try discriminate;
    destruct (Qle_bool 1 sc && Qle_bool sc 5); try discriminate.
  intros H; inversion H; subst; simpl. repeat split.
Qed.


(* ===================================================================== *)
(** ** Primary keys, lookups and single-object commits *)
(* ===================================================================== *)

Lemma next_id_above ids n : In n ids -> n < next_id ids.
Proof.
  unfold next_id. induction ids as [|a ids IH]; simpl; [intros []|].
  intros [->|H]; [lia|]. specialize (IH H). lia.
Qed.

Lemma find_fresh_feedback table row :
  FeedbackEntry.id row = next_id (map FeedbackEntry.id table) ->
  find (fun f => Nat.eqb (FeedbackEntry.id f) (FeedbackEntry.id row))
       (table ++ [row]) = Some row.
Proof.
  intros Hid.
  assert (Hlt : forall f, In f table -> FeedbackEntry.id f < FeedbackEntry.id row).
  { intros f Hf. rewrite Hid. apply next_id_above, in_map, Hf. }
  clear Hid. induction table as [|a table IH]; simpl.
  - rewrite Nat.eqb_refl. reflexivity.
  - destruct (Nat.eqb_spec (FeedbackEntry.id a) (FeedbackEntry.id row)) as [E|_].
    + specialize (Hlt a (or_introl eq_refl)). lia.
    + apply IH. intros f Hf. apply Hlt. right. exact Hf.
Qed.

Lemma find_product_none pid table :
  has_product_id pid table = false ->
  find (fun p => String.eqb (Product.product_id p) pid) table = None.
Proof.
  unfold has_product_id. induction table as [|a table IH]; simpl; [reflexivity|].
  destruct (String.eqb (Product.product_id a) pid); [discriminate|exact IH].
Qed.

Lemma find_product_some pid table :
  has_product_id pid table = true ->
  exists p, find (fun p => String.eqb (Product.product_id p) pid) table = Some p
            /\ Product.product_id p = pid.
Proof.
  unfold has_product_id. induction table as [|a table IH]; simpl; [discriminate|].
  destruct (String.eqb (Product.product_id a) pid) eqn:E.
  - intros _. exists a. split; [reflexivity|apply String.eqb_eq, E].
  - exact IH.
Qed.

Lemma has_product_id_app pid t1 t2 :
  has_product_id pid (t1 ++ t2) = has_product_id pid t1 || has_product_id pid t2.
Proof. apply existsb_app. Qed.

Lemma has_product_id_In pid table :
  has_product_id pid table = true <-> In pid (map Product.product_id table).
Proof.
  unfold has_product_id. rewrite existsb_exists, in_map_iff.
  split; intros (p & H1 & H2); exists p.
  - split; [apply String.eqb_eq, H2|exact H1].
  - split; [exact H2|apply String.eqb_eq, H1].
Qed.

Section SingleCommits.

Variable now : nat.

(** The row storage makes of a pending product, resp. feedback object. *)
Lemma commit_one_product db log np :
  has_product_id (np_product_id np) (products db) = false ->
  commit now (mkSession db [] [] [np] [] log)
  = (inr [],
     let db' := mkStorage
                  (products db
                   ++ [Product.mk (next_id (map Product.id (products db)))
                                  (np_product_id np) (np_name np) now])
                  (feedback_entries db) in
     mkSession db' [] [] [] [] (log ++ [db'])).
Proof.
  intros H. unfold commit, flush, bind, visible_products, visible_feedback.
  simpl. unfold insert_product. rewrite !app_nil_r, H. simpl.
  rewrite !app_nil_r. reflexivity.
Qed.

Lemma commit_one_product_duplicate db log np :
  has_product_id (np_product_id np) (products db) = true ->
  commit now (mkSession db [] [] [np] [] log)
  = (inl (IntegrityError unique_violation), mkSession db [] [] [] [] log).
Proof.
  intros H. unfold commit, flush, bind, visible_products. simpl.
  unfold insert_product. rewrite !app_nil_r, H. reflexivity.
Qed.

Lemma commit_one_feedback db log nf :
  commit now (mkSession db [] [] [] [nf] log)
  = (let row := insert_feedback now (feedback_entries db) nf in
     let db' := mkStorage (products db) (feedback_entries db ++ [row]) in
     (inr [row], mkSession db' [] [] [] [] (log ++ [db']))).
Proof.
  unfold commit, flush, bind, visible_products, visible_feedback. simpl.
  rewrite !app_nil_r. reflexivity.
Qed.

Lemma refresh_last_inserted ps table log nf :
  let row := insert_feedback now table nf in
  let s := mkSession (mkStorage ps (table ++ [row])) [] [] [] [] log in
  refresh (primary_key_of_last [row]) s = (inr row, s).
Proof.
  intros row s.
  pose proof (find_fresh_feedback table row eq_refl) as H.
  unfold refresh, primary_key_of_last, visible_feedback. simpl in *.
  rewrite app_nil_r, H. reflexivity.
Qed.

End SingleCommits.

(* ===================================================================== *)
(** ** [create_feedback] *)
(* ===================================================================== *)

Section CreateFeedback.

Variable autoflush : bool.
Variable now : nat.

Lemma create_feedback_lookup_fresh feedback db :
  create_feedback_lookup autoflush now feedback (new_session db)
  = (inr (find (fun p => String.eqb (Product.product_id p)
                                     (FeedbackCreate.product_id feedback))
               (products db)),
     new_session db).
Proof.
  unfold create_feedback_lookup, query_product_first, bind.
  rewrite before_query_fresh. unfold visible_products. simpl.
  rewrite app_nil_r. reflexivity.
Qed.

(** The second half of the handler when the lookup found nothing and the
    product is still absent when the INSERT runs. *)
Lemma create_feedback_write_new feedback db :
  has_product_id (FeedbackCreate.product_id feedback) (products db) = false ->
  create_feedback_write now feedback None (new_session db)
  = (let pid := FeedbackCreate.product_id feedback in
     let product := Product.mk (next_id (map Product.id (products db)))
                               pid ("Product " ++ pid) now in
     let row := FeedbackEntry.mk
                  (next_id (map FeedbackEntry.id (feedback_entries db)))
                  pid (FeedbackCreate.score feedback)
                  (FeedbackCreate.comment feedback) now in
     let db1 := mkStorage (products db ++ [product]) (feedback_entries db) in
     let db2 := mkStorage (products db ++ [product])
                          (feedback_entries db ++ [row]) in
     (inr row, mkSession db2 [] [] [] [] [db1; db2])).
Proof.
  intros H. unfold create_feedback_write.
  unfold bind at 1. unfold bind at 1. unfold add_product at 1.
  unfold new_session. cbn [storage flushed_products flushed_feedback
                           new_products new_feedback commits app].
  unfold bind at 1.
  rewrite commit_one_product by exact H.
  cbn zeta. unfold ret at 1.
  unfold bind at 1. unfold add_feedback at 1.
  cbn [storage flushed_products flushed_feedback
       new_products new_feedback commits app].
  unfold bind at 1.
  rewrite commit_one_feedback. cbn zeta.
  cbn [products feedback_entries].
  rewrite refresh_last_inserted. reflexivity.
Qed.

(** The second half when the product has appeared in the meantime: the
    INSERT of the product violates the unique index and the exception
    leaves the handler. *)
Lemma create_feedback_write_duplicate feedback db :
  has_product_id (FeedbackCreate.product_id feedback) (products db) = true ->
  create_feedback_write now feedback None (new_session db)
  = (inl (IntegrityError unique_violation), new_session db).
Proof.
  intros H. unfold create_feedback_write.
  unfold bind at 1. unfold bind at 1. unfold add_product at 1.
  unfold new_session. cbn [storage flushed_products flushed_feedback
                           new_products new_feedback commits app].
  unfold bind at 1.
  rewrite commit_one_product_duplicate by exact H.
  reflexivity.
Qed.

End CreateFeedback.

Lemma no_product_row pid table :
  ~ In pid (map Product.product_id table) -> has_product_id pid table = false.
Proof.
  intros H. destruct (has_product_id pid table) eqn:E; [|reflexivity].
  apply has_product_id_In in E. contradiction.
Qed.

Lemma products_of_absent pid table :
  has_product_id pid table = false ->
  filter (fun p => String.eqb (Product.product_id p) pid) table = [].
Proof.
  intros H. apply filter_nil_iff. intros p Hp.
  destruct (String.eqb (Product.product_id p) pid) eqn:E; [|reflexivity].
  assert (has_product_id pid table = true); [|congruence].
  apply has_product_id_In, in_map_iff. exists p.
  split; [apply String.eqb_eq, E|exact Hp].
Qed.

(** C4.  A request whose [product_id] has no Product row: the handler
    inserts the product, named "Product " followed by the id, and commits
    it (first entry of the commit log: the product is there, the feedback
    row is not), then inserts the feedback row and commits again.  One
    Product row and one FeedbackEntry row are added, the product id has
    exactly one Product row afterwards, and the answer is the persisted
    feedback row with its generated [id] and [created_at]. *)
Theorem create_feedback_creates_missing_product :
  forall (autoflush : bool) (now : nat) (feedback : FeedbackCreate.t)
         (db : Storage),
    ~ In (FeedbackCreate.product_id feedback)
         (map Product.product_id (products db)) ->
    let pid := FeedbackCreate.product_id feedback in
    let product := Product.mk (next_id (map Product.id (products db)))
                              pid ("Product " ++ pid) now in
    let row := FeedbackEntry.mk
                 (next_id (map FeedbackEntry.id (feedback_entries db)))
                 pid (FeedbackCreate.score feedback)
                 (FeedbackCreate.comment feedback) now in
    let db1 := mkStorage (products db ++ [product]) (feedback_entries db) in
    let db2 := mkStorage (products db ++ [product])
                         (feedback_entries db ++ [row]) in
    create_feedback autoflush now feedback (new_session db)
    = (inr row, mkSession db2 [] [] [] [] [db1; db2])
    /\ serve (create_feedback autoflush now feedback) db = (OK row, db2)
    /\ filter (fun p => String.eqb (Product.product_id p) pid) (products db2)
       = [product]
    /\ feedback_of pid (feedback_entries db2)
       = feedback_of pid (feedback_entries db) ++ [row]
    /\ (forall f, In f (feedback_entries db) ->
                  FeedbackEntry.id f <> FeedbackEntry.id row)
    /\ (forall p, In p (products db) -> Product.id p <> Product.id product).
Proof.
  intros autoflush now feedback db Habsent pid product row db1 db2.
  apply no_product_row in Habsent.
  assert (Run : create_feedback autoflush now feedback (new_session db)
                = (inr row, mkSession db2 [] [] [] [] [db1; db2])).
  { unfold create_feedback, bind.
    rewrite create_feedback_lookup_fresh, (find_product_none _ _ Habsent).
    apply create_feedback_write_new, Habsent. }
  split; [exact Run|].
  split; [unfold serve; rewrite Run; reflexivity|].
  split; [|split; [|split]].
  - unfold db2. cbn [products]. rewrite filter_app.
    fold pid in Habsent. rewrite (products_of_absent _ _ Habsent).
    simpl. rewrite String.eqb_refl. reflexivity.
  - unfold feedback_of, db2. cbn [feedback_entries]. rewrite filter_app.
    simpl. rewrite String.eqb_refl. reflexivity.
  - intros f Hf. simpl.
    pose proof (next_id_above (map FeedbackEntry.id (feedback_entries db))
                  (FeedbackEntry.id f) (in_map _ _ _ Hf)). lia.
  - intros p Hp. simpl.
    pose proof (next_id_above (map Product.id (products db))
                  (Product.id p) (in_map _ _ _ Hp)). lia.
Qed.

Lemma create_feedback_creates_missing_product_witness :
  serve (create_feedback true 7 (FeedbackCreate.mk "A" (4 # 1)%Q (Some "fine")))
        empty_storage
  = (OK (FeedbackEntry.mk 1 "A" (4 # 1)%Q (Some "fine") 7),
     mkStorage [Product.mk 1 "A" "Product A" 7]
               [FeedbackEntry.mk 1 "A" (4 # 1)%Q (Some "fine") 7]).
Proof.
  apply (create_feedback_creates_missing_product
           true 7 (FeedbackCreate.mk "A" (4 # 1)%Q (Some "fine")) empty_storage).
  simpl. intros [].
Defined.

(** C8, as the code has it.  When another request has committed a Product
    row for the same [product_id] between the handler's lookup and its
    INSERT, the INSERT violates the unique index; nothing in the handler
    catches the exception, so the caller receives a server error, and the
    request adds neither a Product nor a FeedbackEntry row: storage is as
    the other request left it. *)
Theorem create_feedback_race_reaches_caller :
  forall (autoflush : bool) (now : nat) (feedback : FeedbackCreate.t)
         (other : Storage -> Storage) (db : Storage),
    ~ In (FeedbackCreate.product_id feedback)
         (map Product.product_id (products db)) ->
    In (FeedbackCreate.product_id feedback)
       (map Product.product_id (products (other db))) ->
    create_feedback_raced autoflush now feedback other (new_session db)
    = (inl (IntegrityError unique_violation), new_session (other db))
    /\ serve (create_feedback_raced autoflush now feedback other) db
       = (InternalServerError (IntegrityError unique_violation), other db).
Proof.
  intros autoflush now feedback other db Habsent Hthere.
  apply no_product_row in Habsent. apply has_product_id_In in Hthere.
  assert (Run : create_feedback_raced autoflush now feedback other (new_session db)
                = (inl (IntegrityError unique_violation), new_session (other db))).
  { unfold create_feedback_raced. unfold bind at 1.
    rewrite create_feedback_lookup_fresh, (find_product_none _ _ Habsent).
    unfold bind at 1. unfold meanwhile. simpl.
    apply create_feedback_write_duplicate, Hthere. }
  split; [exact Run|].
  unfold serve. rewrite Run. reflexivity.
Qed.

Lemma create_feedback_race_reaches_caller_witness :
  serve (create_feedback_raced true 3 (FeedbackCreate.mk "A" (5 # 1)%Q None)
           (fun db => snd (serve (create_feedback true 2
                                    (FeedbackCreate.mk "A" (4 # 1)%Q None)) db)))
        empty_storage
  = (InternalServerError (IntegrityError unique_violation),
     mkStorage [Product.mk 1 "A" "Product A" 2]
               [FeedbackEntry.mk 1 "A" (4 # 1)%Q None 2]).
Proof.
  apply (create_feedback_race_reaches_caller
           true 3 (FeedbackCreate.mk "A" (5 # 1)%Q None)
           (fun db => snd (serve (create_feedback true 2
                                    (FeedbackCreate.mk "A" (4 # 1)%Q None)) db))
           empty_storage).
  - simpl. intros [].
  - simpl. left. reflexivity.
Defined.

(** C8 as stated fails: two requests for the new product "A",
    the second served between the lookup and the INSERT of the first.  The
    first is not answered with its feedback row, and its score 5 is in no
    row of storage. *)
Lemma create_feedback_race_not_recovered :
  let first := FeedbackCreate.mk "A" (5 # 1)%Q None in
  let second := FeedbackCreate.mk "A" (4 # 1)%Q None in
  let answer :=
    serve (create_feedback_raced true 3 first
             (fun db => snd (serve (create_feedback true 2 second) db)))
          empty_storage in
  ~ (exists row, fst answer = OK row)
  /\ fst answer = InternalServerError (IntegrityError unique_violation)
  /\ map FeedbackEntry.score (feedback_entries (snd answer)) = [(4 # 1)%Q].
Proof.
  split; [|split].
  - intros [row H]. vm_compute in H. discriminate H.
  - vm_compute. reflexivity.
  - vm_compute. reflexivity.
Qed.

(* ===================================================================== *)
(** ** Rounding *)
(* ===================================================================== *)

Lemma round_half_even_compat q q' :
  (q == q')%Q -> round_half_even q = round_half_even q'.
Proof.
  intros E. unfold round_half_even.
  rewrite (Qfloor_comp _ _ E).
  assert (E' : (q - inject_Z (Qfloor q') == q' - inject_Z (Qfloor q'))%Q)
    by (rewrite E; reflexivity).
  rewrite (Qcompare_comp _ _ E' (1 # 2)%Q (1 # 2)%Q (Qeq_refl _)).
  reflexivity.
Qed.

(** [round_half_even] picks an integer at distance at most 1/2. *)
Lemma round_half_even_close q :
  (Qabs (inject_Z (round_half_even q) - q) <= 1 # 2)%Q.
Proof.
  unfold round_half_even.
  pose proof (Qfloor_le q) as Hlo. pose proof (Qlt_floor q) as Hhi.
  rewrite inject_Z_plus in Hhi. change (inject_Z 1) with (1 # 1)%Q in Hhi.
  apply Qabs_Qle_condition.
  destruct (Qcompare_spec (q - inject_Z (Qfloor q)) (1 # 2)%Q) as [E|L|G].
  - destruct (Z.even (Qfloor q)).
    + split; lra.
    + rewrite inject_Z_plus. change (inject_Z 1) with (1 # 1)%Q. split; lra.
  - split; lra.
  - rewrite inject_Z_plus. change (inject_Z 1) with (1 # 1)%Q. split; lra.
Qed.

(* ===================================================================== *)
(** ** The aggregate query *)
(* ===================================================================== *)



















(* ===================================================================== *)
(** ** Flushing feedback objects *)
(* ===================================================================== *)

Section Inserts.

Variable now : nat.

Lemma insert_feedbacks_shift fs : forall table done,
  insert_feedbacks now table done fs
  = done ++ insert_feedbacks now (table ++ done) [] fs.
Proof.
  induction fs as [|f fs IH]; intros table done; simpl.
  - rewrite app_nil_r. reflexivity.
  - rewrite (IH table (done ++ _)), (IH (table ++ done) [_]).
    rewrite !app_nil_r, <- !app_assoc. reflexivity.
Qed.

Lemma insert_feedbacks_cons table f fs :
  insert_feedbacks now table [] (f :: fs)
  = insert_feedback now table f
    :: insert_feedbacks now (table ++ [insert_feedback now table f]) [] fs.
Proof.
  simpl. rewrite insert_feedbacks_shift, app_nil_r. reflexivity.
Qed.

Lemma insert_feedbacks_snoc table fs f :
  insert_feedbacks now table [] (fs ++ [f])
  = insert_feedbacks now table [] fs
    ++ [insert_feedback now (table ++ insert_feedbacks now table [] fs) f].
Proof.
  revert table. induction fs as [|g fs IH]; intros table.
  - simpl. rewrite !app_nil_r. reflexivity.
  - rewrite <- app_comm_cons, !insert_feedbacks_cons, IH.
    simpl. rewrite <- app_assoc. reflexivity.
Qed.

(** Storage copies the three fields of each object, in order, and stamps
    each row with the clock. *)
Lemma insert_feedbacks_fields fs : forall table,
  map (fun r => (FeedbackEntry.product_id r, FeedbackEntry.score r,
                 FeedbackEntry.comment r, FeedbackEntry.created_at r))
      (insert_feedbacks now table [] fs)
  = map (fun f => (nf_product_id f, nf_score f, nf_comment f, now)) fs.
Proof.
  induction fs as [|f fs IH]; intros table; [reflexivity|].
  rewrite insert_feedbacks_cons. simpl. rewrite IH. reflexivity.
Qed.

Lemma insert_feedbacks_length fs : forall table,
  List.length (insert_feedbacks now table [] fs) = List.length fs.
Proof.
  induction fs as [|f fs IH]; intros table; [reflexivity|].
  rewrite insert_feedbacks_cons. simpl. rewrite IH. reflexivity.
Qed.

End Inserts.

Lemma coerce_rows_length float_of_text df : forall fs,
  coerce_rows float_of_text df = inr fs -> List.length fs = List.length df.
Proof.
  induction df as [|row df IH]; simpl; intros fs H.
  - inversion H. reflexivity.
  - destruct (float_result float_of_text (row_score row)); [discriminate|].
    destruct (coerce_rows float_of_text df); [discriminate|].
    inversion H. simpl. rewrite (IH l); reflexivity.
Qed.

Lemma float_run float_of_text c s :
  float float_of_text c s
  = (match float_result float_of_text c with
     | inl e => inl e
     | inr q => inr q
     end, s).
Proof.
  destruct c as [q|t]; simpl; [reflexivity|].
  destruct (float_of_text t); reflexivity.
Qed.

(* ===================================================================== *)
(** ** The loop of [upload_csv_data] *)
(* ===================================================================== *)

Section UploadLoop.

Variable autoflush : bool.
Variable now : nat.
Variable float_of_text : string -> Exception + Q.

Lemma flush_flushable s ps :
  insert_products now (visible_products s) [] (new_products s) = inr ps ->
  flush now s
  = (inr (insert_feedbacks now (visible_feedback s) [] (new_feedback s)),
     mkSession (storage s)
               (flushed_products s ++ ps)
               (flushed_feedback s
                ++ insert_feedbacks now (visible_feedback s) [] (new_feedback s))
               [] [] (commits s)).
Proof. intros H. unfold flush. rewrite H. reflexivity. Qed.

(** The lookup of the loop body: it answers from the rows visible after
    the flush it may have triggered, and leaves no pending product behind
    when it flushed. *)
Lemma query_product_first_spec pid s :
  (autoflush = true -> flushable now s) ->
  exists s1,
    query_product_first autoflush now pid s
    = (inr (find (fun p => String.eqb (Product.product_id p) pid)
                 (visible_products s1)), s1)
    /\ same_committed s s1
    /\ feedback_after_flush now s1 = feedback_after_flush now s
    /\ (autoflush = true -> new_products s1 = [])
    /\ (autoflush = false -> s1 = s).
Proof.
  intros Hf. unfold query_product_first, before_query.
  destruct autoflush.
  - destruct (Hf eq_refl) as [ps Hps].
    unfold bind. rewrite (flush_flushable s ps Hps). unfold ret.
    eexists. split; [reflexivity|].
    split; [split; reflexivity|].
    split; [|split; [reflexivity|discriminate]].
    unfold feedback_after_flush, visible_feedback. simpl.
    rewrite app_nil_r, app_assoc. reflexivity.
  - exists s. unfold bind, ret.
    split; [reflexivity|]. split; [apply same_committed_refl|].
    split; [reflexivity|]. split; [discriminate|reflexivity].
Qed.

(** One turn of the loop.  When the score coerces, the turn returns the
    incremented count and the feedback table-to-be has gained the row of
    this data row; when it does not, the turn raises that exception.  The
    committed tables are untouched either way. *)
Lemma upload_row_spec row created_count s :
  (autoflush = true -> flushable now s) ->
  match float_result float_of_text (row_score row) with
  | inr q =>
      exists s',
        upload_row autoflush now float_of_text row created_count s
        = (inr (created_count + 1), s')
        /\ same_committed s s'
        /\ (autoflush = true -> flushable now s')
        /\ feedback_after_flush now s'
           = feedback_after_flush now s
             ++ [insert_feedback now (feedback_after_flush now s)
                                 (feedback_object row q)]
  | inl e =>
      exists s',
        upload_row autoflush now float_of_text row created_count s = (inl e, s')
        /\ same_committed s s'
  end.
Proof.
  intros Hf.
  destruct (query_product_first_spec (row_product_id row) s Hf)
    as (s1 & Hq & Hc1 & Hfb1 & Hnew1 & _).
  unfold upload_row, bind. rewrite Hq.
  (* the optional [db.add(product)] *)
  set (found := find _ (visible_products s1)).
  assert (Hadd : exists s2,
             (match found with
              | None => add_product
                          (mkNewProduct (row_product_id row)
                                        ("Product " ++ row_product_id row))
              | Some _ => ret tt
              end) s1 = (inr tt, s2)
             /\ same_committed s1 s2
             /\ (autoflush = true -> flushable now s2)
             /\ visible_feedback s2 = visible_feedback s1
             /\ new_feedback s2 = new_feedback s1).
  { destruct found as [p|] eqn:Efound.
    - exists s1. repeat split; try reflexivity.
      intros Ha. exists []. rewrite (Hnew1 Ha). reflexivity.
    - eexists. split; [reflexivity|]. repeat split.
      intros Ha. unfold flushable, visible_products. simpl.
      rewrite (Hnew1 Ha). simpl. unfold insert_product. simpl.
      rewrite app_nil_r.
      assert (Hno : has_product_id (row_product_id row) (visible_products s1) = false).
      { unfold has_product_id. unfold found in Efound.
        destruct (existsb _ (visible_products s1)) eqn:Ex; [|reflexivity].
        apply existsb_exists in Ex. destruct Ex as (p & Hp & Hm).
        pose proof (find_none _ _ Efound p Hp) as Hn. simpl in Hn. congruence. }
      unfold visible_products in Hno. rewrite Hno. eexists. reflexivity. }
  destruct Hadd as (s2 & Hrun2 & Hc2 & Hfl2 & Hvis2 & Hnf2).
  rewrite Hrun2, float_run.
  destruct (float_result float_of_text (row_score row)) as [e|q].
  - exists s2. split; [reflexivity|].
    eapply same_committed_trans; eassumption.
  - eexists. split; [reflexivity|].
    split; [|split].
    + destruct Hc1 as [A B], Hc2 as [C D]. split; simpl; congruence.
    + intros Ha. destruct (Hfl2 Ha) as [ps Hps]. exists ps. exact Hps.
    + unfold feedback_after_flush at 1. unfold visible_feedback at 1 2. simpl.
      fold (visible_feedback s2). rewrite insert_feedbacks_snoc, app_assoc.
      rewrite Hvis2, Hnf2. fold (feedback_after_flush now s1).
      rewrite Hfb1. reflexivity.
Qed.

(** The whole loop, by induction on the data frame. *)
Lemma iterrows_upload_row_spec df : forall created_count s,
  (autoflush = true -> flushable now s) ->
  match coerce_rows float_of_text df with
  | inr fs =>
      exists s',
        iterrows df (upload_row autoflush now float_of_text) created_count s
        = (inr (created_count + List.length df), s')
        /\ same_committed s s'
        /\ (autoflush = true -> flushable now s')
        /\ feedback_after_flush now s'
           = feedback_after_flush now s
             ++ insert_feedbacks now (feedback_after_flush now s) [] fs
  | inl e =>
      exists s',
        iterrows df (upload_row autoflush now float_of_text) created_count s
        = (inl e, s')
        /\ same_committed s s'
  end.
Proof.
  induction df as [|row df IH]; intros created_count s Hf.
  - simpl. exists s. unfold ret. rewrite Nat.add_0_r, app_nil_r.
    split; [reflexivity|]. split; [apply same_committed_refl|].
    split; [exact Hf|reflexivity].
  - simpl coerce_rows. simpl iterrows. unfold bind.
    pose proof (upload_row_spec row created_count s Hf) as Hrow.
    destruct (float_result float_of_text (row_score row)) as [e|q].
    + destruct Hrow as (s' & -> & Hc). exists s'. split; [reflexivity|exact Hc].
    + destruct Hrow as (s1 & -> & Hc1 & Hf1 & Hfb1).
      specialize (IH (created_count + 1) s1 Hf1).
      destruct (coerce_rows float_of_text df) as [e|fs].
      * destruct IH as (s' & -> & Hc). exists s'. split; [reflexivity|].
        eapply same_committed_trans; eassumption.
      * destruct IH as (s' & -> & Hc & Hf' & Hfb').
        exists s'. split; [f_equal; f_equal; simpl; lia|].
        split; [eapply same_committed_trans; eassumption|].
        split; [exact Hf'|].
        rewrite Hfb', Hfb1, insert_feedbacks_cons, <- app_assoc. reflexivity.
Qed.

End UploadLoop.

(* ===================================================================== *)
(** ** The unique index of [products.product_id] *)
(* ===================================================================== *)

Section UniqueIndex.

Variable now : nat.

Lemma insert_product_error table p e :
  insert_product now table p = inl e -> e = IntegrityError unique_violation.
Proof.
  unfold insert_product. destruct (has_product_id _ table); congruence.
Qed.

Lemma insert_products_error ps : forall table done e,
  insert_products now table done ps = inl e ->
  e = IntegrityError unique_violation.
Proof.
  induction ps as [|p ps IH]; intros table done e; simpl; [discriminate|].
  destruct (insert_product now (table ++ done) p) as [e'|row] eqn:E.
  - intros H. inversion H; subst. eapply insert_product_error, E.
  - apply IH.
Qed.

(** A successful run of INSERTs keeps the product ids pairwise distinct. *)
Lemma insert_products_unique ps : forall table done rows,
  NoDup (map Product.product_id (table ++ done)) ->
  insert_products now table done ps = inr rows ->
  NoDup (map Product.product_id (table ++ rows)).
Proof.
  induction ps as [|p ps IH]; intros table done rows ND; simpl.
  - intros H. inversion H; subst. exact ND.
  - unfold insert_product.
    destruct (has_product_id (np_product_id p) (table ++ done)) eqn:E;
      [discriminate|].
    apply IH. rewrite app_assoc, map_app. simpl.
    apply NoDup_app; [exact ND|repeat constructor; intros []|].
    intros k Hk [<-|[]].
    apply has_product_id_In in Hk. simpl in Hk. congruence.
Qed.

(** Pending products whose ids are new and pairwise distinct are all
    accepted; each becomes one row carrying the object's id and name. *)
Lemma insert_products_accepts ps : forall table done,
  NoDup (map np_product_id ps) ->
  (forall p, In p ps ->
             ~ In (np_product_id p) (map Product.product_id (table ++ done))) ->
  exists rows,
    insert_products now table done ps = inr (done ++ rows)
    /\ map Product.product_id rows = map np_product_id ps.
Proof.
  induction ps as [|p ps IH]; intros table done ND Hnew; simpl.
  - exists []. rewrite app_nil_r. split; reflexivity.
  - inversion ND as [|? ? Hp ND']; subst.
    unfold insert_product.
    rewrite (no_product_row _ _ (Hnew p (or_introl eq_refl))).
    destruct (IH table
                (done ++ [Product.mk (next_id (map Product.id (table ++ done)))
                                     (np_product_id p) (np_name p) now])
                ND') as (rows & Hrun & Hids).
    + intros p' Hp' Hin. rewrite app_assoc, map_app in Hin.
      apply in_app_or in Hin. destruct Hin as [Hin|[E|[]]].
      * exact (Hnew p' (or_intror Hp') Hin).
      * simpl in E. apply Hp. rewrite E. apply in_map, Hp'.
    + eexists. rewrite Hrun, <- app_assoc. split; [reflexivity|].
      simpl. rewrite Hids. reflexivity.
Qed.

(** A second pending product with the id of the first is rejected. *)
Lemma insert_products_rejects_twin table p q :
  has_product_id (np_product_id p) table = false ->
  np_product_id q = np_product_id p ->
  insert_products now table [] [p; q] = inl (IntegrityError unique_violation).
Proof.
  intros Hnew Hsame. simpl. unfold insert_product.
  rewrite !app_nil_r, Hnew. simpl.
  rewrite Hsame, has_product_id_app. simpl.
  rewrite String.eqb_refl, orb_true_r. reflexivity.
Qed.

Lemma commit_spec s :
  match insert_products now (visible_products s) [] (new_products s) with
  | inr ps =>
      let db' := mkStorage (visible_products s ++ ps)
                           (feedback_after_flush now s) in
      commit now s
      = (inr (insert_feedbacks now (visible_feedback s) [] (new_feedback s)),
         mkSession db' [] [] [] [] (commits s ++ [db']))
  | inl e =>
      commit now s = (inl e, mkSession (storage s) [] [] [] [] (commits s))
  end.
Proof.
  unfold commit, bind, flush.
  destruct (insert_products now (visible_products s) [] (new_products s))
    as [e|ps]; [reflexivity|].
  unfold visible_products, visible_feedback, feedback_after_flush. simpl.
  rewrite !app_assoc. reflexivity.
Qed.

End UniqueIndex.

(* ===================================================================== *)
(** ** The loop when queries do not flush *)
(* ===================================================================== *)

Section WithoutAutoflush.

Variable now : nat.
Variable float_of_text : string -> Exception + Q.

Lemma find_product_has pid table :
  find (fun p => String.eqb (Product.product_id p) pid) table
  = None <-> has_product_id pid table = false.
Proof.
  split; [|apply find_product_none].
  intros H. destruct (has_product_id pid table) eqn:E; [|reflexivity].
  destruct (find_product_some _ _ E) as (p & Hp & _). congruence.
Qed.

Lemma upload_row_without_flush row created_count s q :
  float_result float_of_text (row_score row) = inr q ->
  upload_row false now float_of_text row created_count s
  = (inr (created_count + 1),
     mkSession (storage s) (flushed_products s) (flushed_feedback s)
               (new_products s
                ++ (if has_product_id (row_product_id row) (visible_products s)
                    then []
                    else [mkNewProduct (row_product_id row)
                                       ("Product " ++ row_product_id row)]))
               (new_feedback s ++ [feedback_object row q]) (commits s)).
Proof.
  intros Eq. unfold upload_row, query_product_first, before_query.
  unfold bind, ret.
  destruct (has_product_id (row_product_id row) (visible_products s)) eqn:Eh.
  - destruct (find_product_some _ _ Eh) as (p & -> & _).
    rewrite float_run, Eq. unfold add_feedback, feedback_object.
    rewrite app_nil_r. reflexivity.
  - rewrite (find_product_none _ _ Eh). unfold add_product.
    rewrite float_run, Eq. reflexivity.
Qed.

(** Every unknown product of the frame is staged, once per row that names
    it, and nothing else changes but the pending feedback. *)
Lemma iterrows_without_flush df : forall created_count s fs,
  coerce_rows float_of_text df = inr fs ->
  iterrows df (upload_row false now float_of_text) created_count s
  = (inr (created_count + List.length df),
     mkSession (storage s) (flushed_products s) (flushed_feedback s)
               (new_products s ++ staged_without_flush (visible_products s) df)
               (new_feedback s ++ fs) (commits s)).
Proof.
  induction df as [|row df IH]; intros created_count s fs; simpl.
  - intros H. inversion H; subst. unfold ret, staged_without_flush. simpl.
    rewrite Nat.add_0_r, !app_nil_r. destruct s; reflexivity.
  - destruct (float_result float_of_text (row_score row)) as [e|q] eqn:Eq;
      [discriminate|].
    destruct (coerce_rows float_of_text df) as [e|fs'] eqn:Ec; [discriminate|].
    intros H. inversion H; subst fs. clear H.
    unfold bind. rewrite (upload_row_without_flush row created_count s q Eq).
    rewrite (IH (created_count + 1) _ fs' eq_refl).
    unfold staged_without_flush, unknown_product_ids, visible_products. simpl.
    fold (visible_products s).
    destruct (has_product_id (row_product_id row) (visible_products s)); simpl;
      rewrite <- !app_assoc; simpl; f_equal; f_equal; lia.
Qed.

End WithoutAutoflush.

(* ===================================================================== *)
(** ** The loop when every query flushes first *)
(* ===================================================================== *)

Section WithAutoflush.

Variable now : nat.
Variable float_of_text : string -> Exception + Q.

Lemma flushes_to_flushable s table : flushes_to now s table -> flushable now s.
Proof. intros (ps & H & _). exists ps. exact H. Qed.

Lemma upload_row_autoflush_products row created_count s table :
  flushes_to now s table ->
  flushes_to now
    (snd (upload_row true now float_of_text row created_count s))
    (upsert_product now table row).
Proof.
  intros (ps & Hps & ->).
  unfold upload_row, query_product_first, before_query, bind.
  rewrite (flush_flushable now s ps Hps). unfold ret.
  set (s1 := mkSession (storage s) (flushed_products s ++ ps) _ [] [] (commits s)).
  assert (Hvis : visible_products s1 = visible_products s ++ ps).
  { unfold visible_products, s1. simpl. rewrite app_assoc. reflexivity. }
  unfold upsert_product. rewrite <- Hvis.
  destruct (has_product_id (row_product_id row) (visible_products s1)) eqn:Eh.
  - destruct (find_product_some _ _ Eh) as (p & -> & _).
    rewrite float_run.
    destruct (float_result float_of_text (row_score row)); simpl;
      exists []; rewrite app_nil_r; split; reflexivity.
  - rewrite (find_product_none _ _ Eh). unfold add_product.
    rewrite float_run.
    assert (Hins : insert_products now (visible_products s1) []
                     [mkNewProduct (row_product_id row)
                                   ("Product " ++ row_product_id row)]
                   = inr [Product.mk (next_id (map Product.id (visible_products s1)))
                                     (row_product_id row)
                                     ("Product " ++ row_product_id row) now]).
    { simpl. unfold insert_product. rewrite !app_nil_r. simpl. rewrite Eh.
      reflexivity. }
    destruct (float_result float_of_text (row_score row)); simpl;
      eexists; (split; [exact Hins|reflexivity]).
Qed.

Lemma iterrows_autoflush_products df : forall created_count s table fs,
  flushes_to now s table ->
  coerce_rows float_of_text df = inr fs ->
  flushes_to now
    (snd (iterrows df (upload_row true now float_of_text) created_count s))
    (upsert_products now table df).
Proof.
  induction df as [|row df IH]; intros created_count s table fs Hs; simpl.
  - intros _. exact Hs.
  - destruct (float_result float_of_text (row_score row)) as [e|q] eqn:Eq;
      [discriminate|].
    destruct (coerce_rows float_of_text df) as [e|fs'] eqn:Ec; [discriminate|].
    intros _.
    pose proof (upload_row_autoflush_products row created_count s table Hs) as H1.
    pose proof (upload_row_spec true now float_of_text row created_count s
                  (fun _ => flushes_to_flushable _ _ Hs)) as H2.
    rewrite Eq in H2. destruct H2 as (s1 & Hrun & _).
    unfold bind. rewrite Hrun in *. simpl in H1.
    apply (IH _ _ _ fs' H1 eq_refl).
Qed.

End WithAutoflush.

(* ===================================================================== *)
(** ** [upload_csv_data] on a session of its own *)
(* ===================================================================== *)

Section UploadRuns.

Variable now : nat.
Variable float_of_text : string -> Exception + Q.

Lemma new_session_flushable db : flushable now (new_session db).
Proof. exists []. reflexivity. Qed.

Lemma feedback_after_flush_new_session db :
  feedback_after_flush now (new_session db) = feedback_entries db.
Proof.
  unfold feedback_after_flush, visible_feedback. simpl.
  rewrite !app_nil_r. reflexivity.
Qed.

(** The file cannot be read. *)
Lemma upload_csv_data_read_error autoflush e db :
  upload_csv_data autoflush now float_of_text (inl e) (new_session db)
  = (inl (HTTPException 400 (csv_error_detail e)), new_session db).
Proof. reflexivity. Qed.

(** A score does not coerce. *)
Lemma upload_csv_data_coerce_error autoflush df e db :
  coerce_rows float_of_text df = inl e ->
  exists s',
    upload_csv_data autoflush now float_of_text (inr df) (new_session db)
    = (inl (HTTPException 400 (csv_error_detail e)), s')
    /\ same_committed (new_session db) s'.
Proof.
  intros Hc.
  pose proof (iterrows_upload_row_spec autoflush now float_of_text df 0
                (new_session db) (fun _ => new_session_flushable db)) as H.
  rewrite Hc in H. destruct H as (s' & Hrun & Hsame).
  exists s'. split; [|exact Hsame].
  unfold upload_csv_data, try_except, read_csv, bind, ret.
  rewrite Hrun. reflexivity.
Qed.

(** All scores coerce and queries flush: the import succeeds. *)
Lemma upload_csv_data_autoflush df fs db :
  coerce_rows float_of_text df = inr fs ->
  upload_csv_data true now float_of_text (inr df) (new_session db)
  = (let db' := mkStorage
                  (upsert_products now (products db) df)
                  (feedback_entries db
                   ++ insert_feedbacks now (feedback_entries db) [] fs) in
     (inr (imported_message (List.length df)),
      mkSession db' [] [] [] [] [db'])).
Proof.
  intros Hc.
  pose proof (iterrows_upload_row_spec true now float_of_text df 0
                (new_session db) (fun _ => new_session_flushable db)) as H.
  rewrite Hc in H. destruct H as (s' & Hrun & [Hst Hco] & _ & Hfb).
  assert (H0 : flushes_to now (new_session db) (products db)).
  { exists []. split; [reflexivity|].
    unfold visible_products. simpl. rewrite !app_nil_r. reflexivity. }
  pose proof (iterrows_autoflush_products now float_of_text df 0
                (new_session db) (products db) fs H0 Hc) as Hp.
  rewrite Hrun in Hp. simpl in Hp. destruct Hp as (ps & Hps & Htable).
  pose proof (commit_spec now s') as Hcommit. rewrite Hps in Hcommit.
  cbv zeta in Hcommit.
  unfold upload_csv_data, try_except, read_csv, bind, ret.
  rewrite Hrun, Hcommit.
  rewrite <- Htable, Hfb, feedback_after_flush_new_session, Hco.
  reflexivity.
Qed.

(** All scores coerce and queries do not flush: the import succeeds when
    the unique index accepts the staged products, and fails as a whole
    when it does not. *)
Lemma upload_csv_data_without_flush df fs db :
  coerce_rows float_of_text df = inr fs ->
  upload_csv_data false now float_of_text (inr df) (new_session db)
  = match insert_products now (products db) []
                          (staged_without_flush (products db) df) with
    | inr ps =>
        let db' := mkStorage
                     (products db ++ ps)
                     (feedback_entries db
                      ++ insert_feedbacks now (feedback_entries db) [] fs) in
        (inr (imported_message (List.length df)),
         mkSession db' [] [] [] [] [db'])
    | inl e =>
        (inl (HTTPException 400 (csv_error_detail e)), new_session db)
    end.
Proof.
  intros Hc.
  pose proof (iterrows_without_flush now float_of_text df 0 (new_session db) fs Hc)
    as Hrun.
  unfold visible_products in Hrun. simpl in Hrun. rewrite app_nil_r in Hrun.
  unfold upload_csv_data, try_except, read_csv, bind, ret.
  rewrite Hrun.
  match goal with
  | |- context [commit now ?s] => pose proof (commit_spec now s) as Hcommit
  end.
  unfold visible_products, feedback_after_flush, visible_feedback in Hcommit.
  simpl in Hcommit. rewrite !app_nil_r in Hcommit.
  destruct (insert_products now (products db) []
              (staged_without_flush (products db) df)) as [e|ps].
  - rewrite Hcommit. reflexivity.
  - rewrite Hcommit. reflexivity.
Qed.

End UploadRuns.

(* ===================================================================== *)
(** ** Rows, objects and products of an import *)
(* ===================================================================== *)

Lemma coerce_rows_first_error float_of_text pre row post e :
  Forall (coercible float_of_text) pre ->
  float_result float_of_text (row_score row) = inl e ->
  coerce_rows float_of_text (pre ++ row :: post) = inl e.
Proof.
  intros Hpre He. induction Hpre as [|r pre [q Hq] _ IH]; simpl.
  - rewrite He. reflexivity.
  - rewrite Hq, IH. reflexivity.
Qed.

Lemma coerce_rows_error_inv float_of_text df e :
  coerce_rows float_of_text df = inl e ->
  exists pre row post,
    df = pre ++ row :: post
    /\ Forall (coercible float_of_text) pre
    /\ float_result float_of_text (row_score row) = inl e.
Proof.
  induction df as [|r df IH]; simpl; [discriminate|].
  destruct (float_result float_of_text (row_score r)) as [e'|q] eqn:Eq.
  - intros H. inversion H; subst. exists [], r, df. repeat split; [constructor|exact Eq].
  - destruct (coerce_rows float_of_text df) as [e'|fs]; [|discriminate].
    intros H. inversion H; subst.
    destruct (IH eq_refl) as (pre & row & post & -> & Hpre & He).
    exists (r :: pre), row, post. repeat split; [|exact He].
    constructor; [exists q; exact Eq|exact Hpre].
Qed.

Lemma coerce_rows_imported now float_of_text df : forall fs table,
  coerce_rows float_of_text df = inr fs ->
  Forall2 (imported_from now float_of_text) df
          (insert_feedbacks now table [] fs).
Proof.
  induction df as [|row df IH]; simpl; intros fs table H.
  - inversion H. constructor.
  - destruct (float_result float_of_text (row_score row)) as [e|q] eqn:Eq;
      [discriminate|].
    destruct (coerce_rows float_of_text df) as [e|fs']; [discriminate|].
    inversion H; subst. rewrite insert_feedbacks_cons.
    constructor; [|apply IH; reflexivity].
    unfold imported_from. simpl. rewrite Eq. repeat split.
Qed.

Lemma upsert_product_unique now table row :
  NoDup (map Product.product_id table) ->
  NoDup (map Product.product_id (upsert_product now table row)).
Proof.
  intros ND. unfold upsert_product.
  destruct (has_product_id (row_product_id row) table) eqn:E; [exact ND|].
  rewrite map_app. apply NoDup_app; [exact ND|repeat constructor; intros []|].
  intros k Hk [<-|[]]. apply has_product_id_In in Hk. simpl in Hk. congruence.
Qed.

Lemma upsert_products_unique now df : forall table,
  NoDup (map Product.product_id table) ->
  NoDup (map Product.product_id (upsert_products now table df)).
Proof.
  unfold upsert_products.
  induction df as [|row df IH]; intros table ND; simpl; [exact ND|].
  apply IH, upsert_product_unique, ND.
Qed.


Lemma staged_without_flush_accepted now table df :
  NoDup (unknown_product_ids table df) ->
  exists ps,
    insert_products now table [] (staged_without_flush table df) = inr ps
    /\ map Product.product_id ps = unknown_product_ids table df.
Proof.
  intros ND.
  destruct (insert_products_accepts now (staged_without_flush table df) table [])
    as (rows & Hrun & Hids).
  - unfold staged_without_flush. rewrite map_map. simpl. rewrite map_id. exact ND.
  - intros p Hp. unfold staged_without_flush in Hp. apply in_map_iff in Hp.
    destruct Hp as (pid & <- & Hpid). unfold unknown_product_ids in Hpid.
    apply filter_In in Hpid. destruct Hpid as [_ Hneg]. simpl.
    rewrite app_nil_r. intros Hin. apply has_product_id_In in Hin.
    rewrite Hin in Hneg. discriminate.
  - exists rows. split; [exact Hrun|].
    rewrite Hids. unfold staged_without_flush. rewrite map_map. simpl.
    apply map_id.
Qed.

(** Every run of [upload_csv_data] on a session of its own ends in one of
    two ways: all rows imported and committed once, or a 400 with the
    committed tables untouched. *)
Lemma upload_csv_data_outcome autoflush now float_of_text file db :
  let run := upload_csv_data autoflush now float_of_text file (new_session db) in
  (exists df fs db',
      file = inr df
      /\ coerce_rows float_of_text df = inr fs
      /\ run = (inr (imported_message (List.length df)),
                mkSession db' [] [] [] [] [db'])
      /\ feedback_entries db'
         = feedback_entries db
           ++ insert_feedbacks now (feedback_entries db) [] fs
      /\ (unique_product_ids db -> unique_product_ids db'))
  \/ (exists e s',
         run = (inl (HTTPException 400 (csv_error_detail e)), s')
         /\ same_committed (new_session db) s').
Proof.
  intros run. unfold run. destruct file as [e|df].
  - right. exists e, (new_session db).
    split; [apply upload_csv_data_read_error|apply same_committed_refl].
  - destruct (coerce_rows float_of_text df) as [e|fs] eqn:Ec.
    + right. destruct (upload_csv_data_coerce_error now float_of_text
                         autoflush df e db Ec) as (s' & Hrun & Hsame).
      exists e, s'. split; assumption.
    + destruct autoflush.
      * left. exists df, fs. eexists. split; [reflexivity|]. split; [exact Ec|].
        rewrite (upload_csv_data_autoflush now float_of_text df fs db Ec).
        cbv zeta. split; [reflexivity|]. split; [reflexivity|].
        unfold unique_product_ids. simpl. apply upsert_products_unique.
      * rewrite (upload_csv_data_without_flush now float_of_text df fs db Ec).
        destruct (insert_products now (products db) []
                    (staged_without_flush (products db) df)) as [e|ps] eqn:Ei.
        -- right. exists e, (new_session db).
           split; [reflexivity|apply same_committed_refl].
        -- left. exists df, fs. eexists. split; [reflexivity|].
           split; [exact Ec|]. cbv zeta. split; [reflexivity|].
           split; [reflexivity|].
           unfold unique_product_ids. simpl. intros ND.
           eapply (insert_products_unique now); [|exact Ei].
           rewrite app_nil_r. exact ND.
Qed.

(** The import never makes a second Product row for a product id: when
    the ids of the products table are pairwise distinct before a request,
    they are after it, whatever the request's outcome. *)
Lemma upload_csv_data_keeps_unique_product_ids
      autoflush now float_of_text file db :
  unique_product_ids db ->
  unique_product_ids
    (snd (serve (upload_csv_data autoflush now float_of_text file) db)).
Proof.
  intros ND. unfold serve.
  destruct (upload_csv_data_outcome autoflush now float_of_text file db)
    as [(df & fs & db' & _ & _ & -> & _ & Hu)|(e & s' & -> & [Hs _])].
  - simpl. apply Hu, ND.
  - simpl. rewrite Hs. exact ND.
Qed.

(** C6.  A failure while reading the file, or while coercing the score of
    a row (all rows before it having coerced), fails the whole import:
    the answer is a 400 whose detail is "Error processing CSV: " followed
    by the text of that exception, and storage is handed back as it was.
    More generally every answer other than success is such a 400, with
    storage unchanged and no commit performed. *)
Theorem upload_csv_data_fails_atomically :
  forall (autoflush : bool) (now : nat)
         (float_of_text : string -> Exception + Q)
         (file : Exception + list Row) (db : Storage),
    let run := upload_csv_data autoflush now float_of_text file (new_session db) in
    let answer := serve (upload_csv_data autoflush now float_of_text file) db in
    (forall e, file = inl e ->
               answer = (ErrorResponse 400 ("Error processing CSV: " ++ str e), db)
               /\ commits (snd run) = [])
    /\ (forall pre row post e,
           file = inr (pre ++ row :: post) ->
           Forall (coercible float_of_text) pre ->
           float_result float_of_text (row_score row) = inl e ->
           answer = (ErrorResponse 400 ("Error processing CSV: " ++ str e), db)
           /\ commits (snd run) = [])
    /\ ((exists msg, fst answer = OK msg)
        \/ (exists e,
               answer = (ErrorResponse 400 ("Error processing CSV: " ++ str e), db)
               /\ storage (snd run) = db
               /\ commits (snd run) = [])).
Proof.
  intros autoflush now float_of_text file db run answer.
  assert (Fail : forall e s',
             run = (inl (HTTPException 400 (csv_error_detail e)), s') ->
             same_committed (new_session db) s' ->
             answer = (ErrorResponse 400 ("Error processing CSV: " ++ str e), db)
             /\ storage (snd run) = db
             /\ commits (snd run) = []).
  { intros e s' Hrun [Hs Hc]. unfold answer, serve. fold run. rewrite Hrun.
    simpl. rewrite Hs. simpl in Hc. rewrite Hc. repeat split. }
  split; [|split].
  - intros e ->.
    destruct (Fail e (new_session db)
                (upload_csv_data_read_error now float_of_text autoflush e db)
                (same_committed_refl _)) as (A & _ & C).
    split; assumption.
  - intros pre row post e -> Hpre He.
    pose proof (coerce_rows_first_error float_of_text pre row post e Hpre He) as Hc.
    destruct (upload_csv_data_coerce_error now float_of_text autoflush _ e db Hc)
      as (s' & Hrun & Hsame).
    destruct (Fail e s' Hrun Hsame) as (A & _ & C). split; assumption.
  - destruct (upload_csv_data_outcome autoflush now float_of_text file db)
      as [(df & fs & db' & _ & _ & Hrun & _)|(e & s' & Hrun & Hsame)].
    + left. eexists. unfold answer, serve. rewrite Hrun. reflexivity.
    + right. exists e. apply (Fail e s' Hrun Hsame).
Qed.

Lemma coercible_all_coerce float_of_text df :
  Forall (coercible float_of_text) df ->
  exists fs, coerce_rows float_of_text df = inr fs.
Proof.
  induction 1 as [|row df [q Hq] _ [fs IH]]; simpl.
  - exists []. reflexivity.
  - rewrite Hq, IH. eexists. reflexivity.
Qed.

(** When every score coerces, the import succeeds if queries flush, and
    also if they do not provided no unknown product id occurs twice. *)
Lemma upload_csv_data_succeeds autoflush now float_of_text df fs db :
  coerce_rows float_of_text df = inr fs ->
  autoflush = true \/ NoDup (unknown_product_ids (products db) df) ->
  exists db',
    upload_csv_data autoflush now float_of_text (inr df) (new_session db)
    = (inr (imported_message (List.length df)), mkSession db' [] [] [] [] [db'])
    /\ feedback_entries db'
       = feedback_entries db ++ insert_feedbacks now (feedback_entries db) [] fs.
Proof.
  intros Hc Hmode. destruct autoflush.
  - rewrite (upload_csv_data_autoflush now float_of_text df fs db Hc).
    eexists. split; reflexivity.
  - destruct Hmode as [Habs|ND]; [discriminate|].
    rewrite (upload_csv_data_without_flush now float_of_text df fs db Hc).
    destruct (staged_without_flush_accepted now (products db) df ND)
      as (ps & -> & _).
    eexists. split; reflexivity.
Qed.

(** C7.  A successful import comes from a readable file all of whose
    scores coerce; it adds to the feedback table one row per data row, in
    order, each with the row's product id, its score coerced and its
    comment; the session has committed exactly once, and that commit holds
    all the rows; the message names the number of data rows.  Such a file
    is imported successfully whenever queries flush, or no unknown product
    id occurs twice in it. *)
Theorem upload_csv_data_imports_every_row :
  forall (autoflush : bool) (now : nat)
         (float_of_text : string -> Exception + Q)
         (file : Exception + list Row) (db : Storage),
    let run := upload_csv_data autoflush now float_of_text file (new_session db) in
    let answer := serve (upload_csv_data autoflush now float_of_text file) db in
    (forall msg db',
        answer = (OK msg, db') ->
        exists df imported,
          file = inr df
          /\ Forall (coercible float_of_text) df
          /\ msg = ("Successfully imported " ++ str_of_nat (List.length df)
                      ++ " feedback entries")%string
          /\ feedback_entries db' = feedback_entries db ++ imported
          /\ List.length imported = List.length df
          /\ Forall2 (imported_from now float_of_text) df imported
          /\ commits (snd run) = [db']
          /\ new_feedback (snd run) = []
          /\ flushed_feedback (snd run) = [])
    /\ (forall df,
           file = inr df ->
           Forall (coercible float_of_text) df ->
           autoflush = true \/ NoDup (unknown_product_ids (products db) df) ->
           exists db',
             answer = (OK (imported_message (List.length df)), db')).
Proof.
  intros autoflush now float_of_text file db run answer. split.
  - intros msg db' Hanswer.
    destruct (upload_csv_data_outcome autoflush now float_of_text file db)
      as [(df & fs & db1 & Hfile & Hc & Hrun & Hfb & _)|(e & s' & Hrun & _)].
    + unfold answer, serve in Hanswer. rewrite Hrun in Hanswer.
      simpl in Hanswer. inversion Hanswer; subst msg db1. clear Hanswer.
      exists df, (insert_feedbacks now (feedback_entries db) [] fs).
      split; [exact Hfile|]. split.
      { clear -Hc. revert fs Hc.
        induction df as [|row df IH]; simpl; intros fs Hc; [constructor|].
        destruct (float_result float_of_text (row_score row)) as [e|q] eqn:Eq;
          [discriminate|].
        destruct (coerce_rows float_of_text df) as [e|fs']; [discriminate|].
        constructor; [exists q; exact Eq|apply (IH fs'); reflexivity]. }
      split; [reflexivity|]. split; [exact Hfb|].
      split; [rewrite insert_feedbacks_length;
              apply (coerce_rows_length _ _ _ Hc)|].
      split; [apply coerce_rows_imported, Hc|].
      unfold run. rewrite Hrun. repeat split.
    + unfold answer, serve in Hanswer. rewrite Hrun in Hanswer.
      simpl in Hanswer. discriminate.
  - intros df -> Hall Hmode.
    destruct (coercible_all_coerce _ _ Hall) as [fs Hc].
    destruct (upload_csv_data_succeeds autoflush now float_of_text df fs db
                Hc Hmode) as (db' & Hrun & _).
    exists db'. unfold answer, serve. rewrite Hrun. reflexivity.
Qed.

(** C10.  The import does not look at the range of a score: a file whose
    single row carries a score outside [1, 5] is imported, and a feedback
    row with that score is in storage afterwards, although the same
    fields sent to [POST /feedback/] are refused. *)
Theorem upload_csv_data_skips_range_check :
  forall (autoflush : bool) (now : nat)
         (float_of_text : string -> Exception + Q)
         (db : Storage) (pid : string) (q : Q) (comment : option string),
    ~ (1 <= q /\ q <= 5)%Q ->
    exists db',
      serve (upload_csv_data autoflush now float_of_text
               (inr [mkRow pid (NumCell q) comment])) db
      = (OK (imported_message 1), db')
      /\ feedback_entries db'
         = feedback_entries db
           ++ [FeedbackEntry.mk (next_id (map FeedbackEntry.id (feedback_entries db)))
                                pid q comment now]
      /\ (exists fields,
             post_feedback autoflush now (mkBody (Some pid) (Some q) comment) db
             = (ValidationError fields, db)).
Proof.
  intros autoflush now float_of_text db pid q comment Hout.
  destruct (upload_csv_data_succeeds autoflush now float_of_text
              [mkRow pid (NumCell q) comment]
              [feedback_object (mkRow pid (NumCell q) comment) q] db eq_refl)
    as (db' & Hrun & Hfb).
  { right. unfold unknown_product_ids. simpl.
    destruct (negb (has_product_id pid (products db)));
      repeat constructor; intros []. }
  exists db'. split; [unfold serve; rewrite Hrun; reflexivity|].
  split.
  - rewrite Hfb. simpl. rewrite app_nil_r. reflexivity.
  - unfold post_feedback, validate. simpl.
    change (Qle_bool 1 q && Qle_bool q 5) with (in_range q).
    destruct (in_range q) eqn:E.
    + apply in_range_iff in E. contradiction.
    + eexists. reflexivity.
Qed.

Lemma upload_csv_data_skips_range_check_witness :
  exists db',
    serve (upload_csv_data true 7 (fun s => inl (ValueError s))
             (inr [mkRow "A" (NumCell (95 # 10)%Q) None])) empty_storage
    = (OK (imported_message 1), db')
    /\ feedback_entries db' = [FeedbackEntry.mk 1 "A" (95 # 10)%Q None 7]
    /\ (exists fields,
           post_feedback true 7 (mkBody (Some "A") (Some (95 # 10)%Q) None)
                         empty_storage
           = (ValidationError fields, empty_storage)).
Proof.
  apply (upload_csv_data_skips_range_check
           true 7 (fun s => inl (ValueError s)) empty_storage "A" (95 # 10)%Q None).
  intros [_ H]. revert H. apply Qlt_not_le. reflexivity.
Defined.

(* ===================================================================== *)
(** ** Two rows that share a product id unknown to storage *)
(* ===================================================================== *)

Lemma twin_rows_coerce float_of_text r1 r2 :
  coercible float_of_text r1 -> coercible float_of_text r2 ->
  exists q1 q2,
    float_result float_of_text (row_score r1) = inr q1
    /\ float_result float_of_text (row_score r2) = inr q2
    /\ coerce_rows float_of_text [r1; r2]
       = inr [feedback_object r1 q1; feedback_object r2 q2].
Proof.
  intros [q1 H1] [q2 H2]. exists q1, q2. simpl. rewrite H1, H2. repeat split.
Qed.


(** With a session whose queries do not flush, both rows stage a Product
    object; the single commit violates the unique index, the import is
    answered with a 400 and nothing is stored. *)
Lemma upload_csv_data_twin_rows_without_autoflush
      now float_of_text db r1 r2 :
  row_product_id r2 = row_product_id r1 ->
  ~ In (row_product_id r1) (map Product.product_id (products db)) ->
  coercible float_of_text r1 ->
  coercible float_of_text r2 ->
  exists e,
    serve (upload_csv_data false now float_of_text (inr [r1; r2])) db
    = (ErrorResponse 400 ("Error processing CSV: " ++ str e), db).
Proof.
  intros Hsame Hnew C1 C2.
  destruct (twin_rows_coerce float_of_text r1 r2 C1 C2) as (q1 & q2 & _ & _ & Hc).
  apply no_product_row in Hnew.
  assert (Hst : staged_without_flush (products db) [r1; r2]
                = [mkNewProduct (row_product_id r1) ("Product " ++ row_product_id r1);
                   mkNewProduct (row_product_id r1) ("Product " ++ row_product_id r1)]).
  { unfold staged_without_flush, unknown_product_ids. simpl.
    rewrite Hsame, Hnew. reflexivity. }
  exists (IntegrityError unique_violation). unfold serve.
  rewrite (upload_csv_data_without_flush now float_of_text _ _ db Hc), Hst.
  rewrite (insert_products_rejects_twin now (products db)
             (mkNewProduct (row_product_id r1) ("Product " ++ row_product_id r1))
             (mkNewProduct (row_product_id r1) ("Product " ++ row_product_id r1))
             Hnew eq_refl).
  reflexivity.
Qed.



(* ===================================================================== *)
(** ** The theorems at concrete storage *)
(* ===================================================================== *)


(** A file whose second row has a score that is no number. *)
Lemma upload_csv_data_fails_atomically_witness :
  let float_of_text :=
    fun s => inl (ValueError ("could not convert string to float: '" ++ s ++ "'")) in
  let db := mkStorage [Product.mk 1 "A" "Product A" 0]
                      [FeedbackEntry.mk 1 "A" (4 # 1)%Q None 0] in
  serve (upload_csv_data true 7 float_of_text
           (inr [mkRow "B" (NumCell (3 # 1)%Q) None;
                 mkRow "C" (TextCell "abc") None;
                 mkRow "D" (NumCell (2 # 1)%Q) None])) db
  = (ErrorResponse 400
       "Error processing CSV: could not convert string to float: 'abc'", db).
Proof.
  intros float_of_text db.
  apply (proj1 (proj2 (upload_csv_data_fails_atomically
                         true 7 float_of_text
                         (inr [mkRow "B" (NumCell (3 # 1)%Q) None;
                               mkRow "C" (TextCell "abc") None;
                               mkRow "D" (NumCell (2 # 1)%Q) None]) db))
               [mkRow "B" (NumCell (3 # 1)%Q) None]
               (mkRow "C" (TextCell "abc") None)
               [mkRow "D" (NumCell (2 # 1)%Q) None]
               (ValueError "could not convert string to float: 'abc'")).
  - reflexivity.
  - repeat constructor. exists (3 # 1)%Q. reflexivity.
  - reflexivity.
Defined.

(** Three rows, two of them for a product storage already knows. *)
Lemma upload_csv_data_imports_every_row_witness :
  let float_of_text := fun s => inl (ValueError s) in
  let db := mkStorage [Product.mk 1 "A" "Product A" 0]
                      [FeedbackEntry.mk 1 "A" (4 # 1)%Q None 0] in
  exists db',
    serve (upload_csv_data false 7 float_of_text
             (inr [mkRow "A" (NumCell (3 # 1)%Q) None;
                   mkRow "B" (NumCell (5 # 1)%Q) (Some "fine");
                   mkRow "A" (NumCell (2 # 1)%Q) None])) db
    = (OK "Successfully imported 3 feedback entries", db').
Proof.
  intros float_of_text db.
  apply (proj2 (upload_csv_data_imports_every_row
                  false 7 float_of_text
                  (inr [mkRow "A" (NumCell (3 # 1)%Q) None;
                        mkRow "B" (NumCell (5 # 1)%Q) (Some "fine");
                        mkRow "A" (NumCell (2 # 1)%Q) None]) db)
               [mkRow "A" (NumCell (3 # 1)%Q) None;
                mkRow "B" (NumCell (5 # 1)%Q) (Some "fine");
                mkRow "A" (NumCell (2 # 1)%Q) None]).
  - reflexivity.
  - repeat constructor; eexists; reflexivity.
  - right. vm_compute. repeat constructor. intros [].
Defined.

(** Feedback for "A" only: "A" is answered with its rows, "B" with 404. *)
Lemma get_feedback_by_product_rows_or_404_witness :
  let db := mkStorage
              [Product.mk 1 "A" "Product A" 0; Product.mk 2 "B" "Product B" 0]
              [FeedbackEntry.mk 1 "A" (4 # 1)%Q None 0] in
  serve (get_feedback_by_product true 1 "A") db
  = (OK [FeedbackEntry.mk 1 "A" (4 # 1)%Q None 0], db)
  /\ serve (get_feedback_by_product true 1 "B") db
     = (ErrorResponse 404 "No feedback found for this product", db).
Proof.
  intros db. split.
  - apply (proj1 (proj2 (get_feedback_by_product_rows_or_404 true 1 "A" db))).
  - apply (proj1 (proj2 (get_feedback_by_product_rows_or_404 true 1 "B" db))).
Defined.

(* ===================================================================== *)
(** ** [create_feedback] on every storage *)
(* ===================================================================== *)

Section CreateFeedbackRuns.

Variable autoflush : bool.
Variable now : nat.

(** The second half of the handler when the lookup found the product. *)
Lemma create_feedback_write_existing feedback p db :
  create_feedback_write now feedback (Some p) (new_session db)
  = (let db2 := mkStorage (products db)
                          (feedback_entries db ++ [feedback_row now feedback db]) in
     (inr (feedback_row now feedback db), mkSession db2 [] [] [] [] [db2])).
Proof.
  unfold create_feedback_write.
  unfold bind at 1. unfold bind at 1. unfold ret at 1.
  unfold add_feedback at 1. unfold new_session.
  cbn [storage flushed_products flushed_feedback new_products new_feedback
       commits app].
  unfold bind at 1. rewrite commit_one_feedback. cbn zeta.
  cbn [products feedback_entries].
  rewrite refresh_last_inserted. reflexivity.
Qed.

(** The handler on a session of its own, whatever storage holds. *)
Lemma create_feedback_run feedback db :
  create_feedback autoflush now feedback (new_session db)
  = (let pid := FeedbackCreate.product_id feedback in
     let known := has_product_id pid (products db) in
     let ps := if known then products db
               else products db ++ [product_row now pid db] in
     let db2 := mkStorage ps (feedback_entries db ++ [feedback_row now feedback db]) in
     (inr (feedback_row now feedback db),
      mkSession db2 [] [] [] []
                (if known then [db2]
                 else [mkStorage ps (feedback_entries db); db2]))).
Proof.
  cbv zeta. unfold create_feedback, bind.
  rewrite create_feedback_lookup_fresh.
  destruct (has_product_id (FeedbackCreate.product_id feedback) (products db))
    eqn:E.
  - destruct (find_product_some _ _ E) as (p & -> & _).
    apply create_feedback_write_existing.
  - rewrite (find_product_none _ _ E).
    apply (create_feedback_write_new now feedback db E).
Qed.

Lemma serve_create_feedback feedback db :
  serve (create_feedback autoflush now feedback) db
  = (OK (feedback_row now feedback db),
     mkStorage
       (if has_product_id (FeedbackCreate.product_id feedback) (products db)
        then products db
        else products db
             ++ [product_row now (FeedbackCreate.product_id feedback) db])
       (feedback_entries db ++ [feedback_row now feedback db])).
Proof. unfold serve. rewrite create_feedback_run. reflexivity. Qed.

End CreateFeedbackRuns.

(** C3.  A body is accepted exactly when it has a [product_id] and a
    [score] with [1 <= score <= 5].  An accepted body is handed to
    [create_feedback] with its fields: the answer is the stored feedback
    row.  A rejected body is answered by a validation error naming at
    least one field, and storage is handed back untouched: the route does
    not run.  Scores 1.0 and 5.0 are accepted and stored; 0.99, 5.01 and
    a body without [product_id] or without [score] are refused. *)
Theorem post_feedback_validates_before_storage :
  forall (autoflush : bool) (now : nat) (body : RequestBody) (db : Storage),
    ((exists fb, validate body = inr fb)
     <-> (exists pid sc,
             body_product_id body = Some pid /\ body_score body = Some sc
             /\ (1 <= sc)%Q /\ (sc <= 5)%Q))
    /\ ((exists fb,
            validate body = inr fb
            /\ body_product_id body = Some (FeedbackCreate.product_id fb)
            /\ body_score body = Some (FeedbackCreate.score fb)
            /\ body_comment body = FeedbackCreate.comment fb
            /\ fst (post_feedback autoflush now body db)
               = OK (feedback_row now fb db)
            /\ feedback_entries (snd (post_feedback autoflush now body db))
               = feedback_entries db ++ [feedback_row now fb db])
        \/ (exists fields,
               fields <> []
               /\ validate body = inl fields
               /\ post_feedback autoflush now body db
                  = (ValidationError fields, db)))
    /\ (forall pid c,
           validate (mkBody (Some pid) (Some (1 # 1)%Q) c)
           = inr (FeedbackCreate.mk pid (1 # 1)%Q c)
           /\ validate (mkBody (Some pid) (Some (5 # 1)%Q) c)
              = inr (FeedbackCreate.mk pid (5 # 1)%Q c)
           /\ fst (post_feedback autoflush now (mkBody (Some pid) (Some (1 # 1)%Q) c) db)
              = OK (FeedbackEntry.mk
                      (next_id (map FeedbackEntry.id (feedback_entries db)))
                      pid (1 # 1)%Q c now)
           /\ fst (post_feedback autoflush now (mkBody (Some pid) (Some (5 # 1)%Q) c) db)
              = OK (FeedbackEntry.mk
                      (next_id (map FeedbackEntry.id (feedback_entries db)))
                      pid (5 # 1)%Q c now)
           /\ post_feedback autoflush now (mkBody (Some pid) (Some (99 # 100)%Q) c) db
              = (ValidationError ["score"], db)
           /\ post_feedback autoflush now (mkBody (Some pid) (Some (501 # 100)%Q) c) db
              = (ValidationError ["score"], db)
           /\ post_feedback autoflush now (mkBody (Some pid) None c) db
              = (ValidationError ["score"], db)
           /\ post_feedback autoflush now (mkBody None (Some (3 # 1)%Q) c) db
              = (ValidationError ["product_id"], db)).
Proof.
  intros autoflush now body db.
  assert (Accepted : forall b fb,
             validate b = inr fb ->
             post_feedback autoflush now b db
             = serve (create_feedback autoflush now fb) db).
  { intros b fb E. unfold post_feedback. rewrite E. reflexivity. }
  split; [apply validate_accepts_iff|].
  split.
  - destruct (validate body) as [fields|fb] eqn:E.
    + right. exists fields. split; [|split; [reflexivity|]].
      * unfold validate in E.
        destruct (body_product_id body), (body_score body);
          try destruct (Qle_bool 1 q && Qle_bool q 5);
          inversion E; discriminate.
      * unfold post_feedback. rewrite E. reflexivity.
    + left. exists fb.
      destruct (validate_accepted_fields body fb E) as (F1 & F2 & F3).
      split; [reflexivity|]. split; [exact F1|]. split; [exact F2|].
      split; [exact F3|].
      rewrite (Accepted body fb E), serve_create_feedback. split; reflexivity.
  - intros pid c.
    split; [reflexivity|]. split; [reflexivity|].
    split.
    { rewrite (Accepted (mkBody (Some pid) (Some (1 # 1)%Q) c)
                        (FeedbackCreate.mk pid (1 # 1)%Q c) eq_refl),
        serve_create_feedback.
      reflexivity. }
    split.
    { rewrite (Accepted (mkBody (Some pid) (Some (5 # 1)%Q) c)
                        (FeedbackCreate.mk pid (5 # 1)%Q c) eq_refl),
        serve_create_feedback.
      reflexivity. }
    repeat split.
Qed.

Lemma has_product_id_snoc_same pid table p :
  Product.product_id p = pid -> has_product_id pid (table ++ [p]) = true.
Proof.
  intros E. rewrite has_product_id_app. simpl.
  rewrite E, String.eqb_refl, orb_true_r. reflexivity.
Qed.

Lemma NoDup_map_snoc {A B} (f : A -> B) (l : list A) (a : A) :
  NoDup (map f l) -> ~ In (f a) (map f l) -> NoDup (map f (l ++ [a])).
Proof.
  intros ND Hnew. rewrite map_app. apply NoDup_app; [exact ND| |].
  - repeat constructor. intros [].
  - intros k Hk [<-|[]]. exact (Hnew Hk).
Qed.

Lemma next_id_fresh ids : ~ In (next_id ids) ids.
Proof. intros H. apply next_id_above in H. lia. Qed.

(** X1.  A request for a product that has a Product row adds no product:
    the products table is the same afterwards, one feedback row is
    appended, the session commits once, and the answer is the stored row. *)
Theorem create_feedback_known_product :
  forall (autoflush : bool) (now : nat) (feedback : FeedbackCreate.t)
         (db : Storage),
    In (FeedbackCreate.product_id feedback)
       (map Product.product_id (products db)) ->
    let row := feedback_row now feedback db in
    let db' := mkStorage (products db) (feedback_entries db ++ [row]) in
    create_feedback autoflush now feedback (new_session db)
    = (inr row, mkSession db' [] [] [] [] [db'])
    /\ serve (create_feedback autoflush now feedback) db = (OK row, db').
Proof.
  intros autoflush now feedback db Hknown row db'.
  apply has_product_id_In in Hknown.
  split.
  - rewrite create_feedback_run. cbv zeta. rewrite Hknown. reflexivity.
  - rewrite serve_create_feedback, Hknown. reflexivity.
Qed.

Lemma create_feedback_known_product_witness :
  serve (create_feedback true 9 (FeedbackCreate.mk "A" (3 # 1)%Q None))
        (mkStorage [Product.mk 1 "A" "Widget" 0]
                   [FeedbackEntry.mk 1 "A" (4 # 1)%Q None 0])
  = (OK (FeedbackEntry.mk 2 "A" (3 # 1)%Q None 9),
     mkStorage [Product.mk 1 "A" "Widget" 0]
               [FeedbackEntry.mk 1 "A" (4 # 1)%Q None 0;
                FeedbackEntry.mk 2 "A" (3 # 1)%Q None 9]).
Proof.
  apply (create_feedback_known_product
           true 9 (FeedbackCreate.mk "A" (3 # 1)%Q None)
           (mkStorage [Product.mk 1 "A" "Widget" 0]
                      [FeedbackEntry.mk 1 "A" (4 # 1)%Q None 0])).
  simpl. left. reflexivity.
Defined.

(** X2.  Served on its own, [create_feedback] never fails: for every
    storage and every request it answers with a row that carries the
    request's fields, appends exactly that row to the feedback table, and
    leaves the products table as it was or longer by one auto-created row
    for the request's product id. *)
Theorem create_feedback_always_answers :
  forall (autoflush : bool) (now : nat) (feedback : FeedbackCreate.t)
         (db : Storage),
    exists row db',
      serve (create_feedback autoflush now feedback) db = (OK row, db')
      /\ FeedbackEntry.product_id row = FeedbackCreate.product_id feedback
      /\ FeedbackEntry.score row = FeedbackCreate.score feedback
      /\ FeedbackEntry.comment row = FeedbackCreate.comment feedback
      /\ FeedbackEntry.created_at row = now
      /\ feedback_entries db' = feedback_entries db ++ [row]
      /\ (products db' = products db
          \/ exists p, products db' = products db ++ [p]
                       /\ Product.product_id p = FeedbackCreate.product_id feedback
                       /\ auto_created now p).
Proof.
  intros autoflush now feedback db.
  eexists. eexists. split; [apply serve_create_feedback|].
  repeat split.
  cbn [products].
  destruct (has_product_id (FeedbackCreate.product_id feedback) (products db)).
  - left. reflexivity.
  - right. eexists. split; [reflexivity|]. repeat split.
Qed.

(** X3.  [create_feedback] keeps the product ids pairwise distinct. *)
Theorem create_feedback_keeps_unique_product_ids :
  forall (autoflush : bool) (now : nat) (feedback : FeedbackCreate.t)
         (db : Storage),
    unique_product_ids db ->
    unique_product_ids (snd (serve (create_feedback autoflush now feedback) db)).
Proof.
  intros autoflush now feedback db ND.
  rewrite serve_create_feedback. unfold unique_product_ids. cbn [snd products].
  destruct (has_product_id (FeedbackCreate.product_id feedback) (products db))
    eqn:E; [exact ND|].
  apply NoDup_map_snoc; [exact ND|]. simpl. intros H.
  apply has_product_id_In in H. congruence.
Qed.

Lemma create_feedback_keeps_unique_product_ids_witness :
  unique_product_ids
    (snd (serve (create_feedback false 3 (FeedbackCreate.mk "B" (2 # 1)%Q None))
                (mkStorage [Product.mk 1 "A" "Product A" 0] []))).
Proof.
  apply (create_feedback_keeps_unique_product_ids
           false 3 (FeedbackCreate.mk "B" (2 # 1)%Q None)
           (mkStorage [Product.mk 1 "A" "Product A" 0] [])).
  unfold unique_product_ids. simpl. repeat constructor. intros [].
Defined.

(** X4.  [create_feedback] keeps every feedback row attached to a product:
    when each stored row names a product that has a Product row, so does
    each row afterwards, the new one included. *)
Theorem create_feedback_keeps_referential_integrity :
  forall (autoflush : bool) (now : nat) (feedback : FeedbackCreate.t)
         (db : Storage),
    referential_integrity db ->
    referential_integrity
      (snd (serve (create_feedback autoflush now feedback) db)).
Proof.
  intros autoflush now feedback db RI.
  rewrite serve_create_feedback. unfold referential_integrity.
  cbn [snd products feedback_entries]. intros f Hf.
  apply in_app_or in Hf. destruct Hf as [Hf|[<-|[]]].
  - specialize (RI f Hf).
    destruct (has_product_id _ (products db)); [exact RI|].
    rewrite map_app. apply in_or_app. left. exact RI.
  - simpl.
    destruct (has_product_id (FeedbackCreate.product_id feedback) (products db))
      eqn:E.
    + apply has_product_id_In, E.
    + rewrite map_app. apply in_or_app. right. left. reflexivity.
Qed.

Lemma create_feedback_keeps_referential_integrity_witness :
  referential_integrity
    (snd (serve (create_feedback true 3 (FeedbackCreate.mk "B" (2 # 1)%Q None))
                (mkStorage [Product.mk 1 "A" "Product A" 0]
                           [FeedbackEntry.mk 1 "A" (4 # 1)%Q None 0]))).
Proof.
  apply (create_feedback_keeps_referential_integrity
           true 3 (FeedbackCreate.mk "B" (2 # 1)%Q None)
           (mkStorage [Product.mk 1 "A" "Product A" 0]
                      [FeedbackEntry.mk 1 "A" (4 # 1)%Q None 0])).
  intros f [<-|[]]. simpl. left. reflexivity.
Defined.

(** X5.  [create_feedback] never reuses a primary key: when the keys of
    each table are pairwise distinct before the request, they are after
    it. *)
Theorem create_feedback_keeps_distinct_primary_keys :
  forall (autoflush : bool) (now : nat) (feedback : FeedbackCreate.t)
         (db : Storage),
    distinct_primary_keys db ->
    distinct_primary_keys
      (snd (serve (create_feedback autoflush now feedback) db)).
Proof.
  intros autoflush now feedback db [NP NF].
  rewrite serve_create_feedback. unfold distinct_primary_keys.
  cbn [snd products feedback_entries]. split.
  - destruct (has_product_id _ (products db)); [exact NP|].
    apply NoDup_map_snoc; [exact NP|apply next_id_fresh].
  - apply NoDup_map_snoc; [exact NF|apply next_id_fresh].
Qed.

Lemma create_feedback_keeps_distinct_primary_keys_witness :
  distinct_primary_keys
    (snd (serve (create_feedback true 3 (FeedbackCreate.mk "B" (2 # 1)%Q None))
                (mkStorage [Product.mk 4 "A" "Product A" 0]
                           [FeedbackEntry.mk 7 "A" (4 # 1)%Q None 0]))).
Proof.
  apply (create_feedback_keeps_distinct_primary_keys
           true 3 (FeedbackCreate.mk "B" (2 # 1)%Q None)
           (mkStorage [Product.mk 4 "A" "Product A" 0]
                      [FeedbackEntry.mk 7 "A" (4 # 1)%Q None 0])).
  split; simpl; repeat constructor; intros [].
Defined.

Lemma get_all_feedback_fresh autoflush now db :
  get_all_feedback autoflush now (new_session db)
  = (inr (feedback_entries db), new_session db).
Proof.
  unfold get_all_feedback, query_feedback_all, bind.
  rewrite before_query_fresh. unfold ret, visible_feedback. simpl.
  rewrite app_nil_r. reflexivity.
Qed.

(** X6.  Through [POST /feedback/] no out-of-range score reaches storage:
    when every stored score lies in [1, 5] before a request, every stored
    score does after it, whatever the body. *)
Theorem post_feedback_keeps_scores_in_range :
  forall (autoflush : bool) (now : nat) (body : RequestBody) (db : Storage),
    scores_in_range db ->
    scores_in_range (snd (post_feedback autoflush now body db)).
Proof.
  intros autoflush now body db Hin. unfold post_feedback.
  destruct (validate body) as [fields|feedback] eqn:E; [exact Hin|].
  rewrite serve_create_feedback. unfold scores_in_range.
  cbn [snd feedback_entries]. intros f Hf.
  apply in_app_or in Hf. destruct Hf as [Hf|[<-|[]]]; [apply Hin, Hf|].
  simpl.
  destruct (proj1 (validate_accepts_iff body) (ex_intro _ feedback E))
    as (pid & sc & _ & Hsc & H1 & H5).
  destruct (validate_accepted_fields body feedback E) as (_ & Hsc' & _).
  rewrite Hsc in Hsc'. inversion Hsc'. subst sc. split; assumption.
Qed.

Lemma post_feedback_keeps_scores_in_range_witness :
  scores_in_range
    (snd (post_feedback true 3 (mkBody (Some "A") (Some (5 # 1)%Q) None)
                        (mkStorage [] [FeedbackEntry.mk 1 "B" (1 # 1)%Q None 0]))).
Proof.
  apply (post_feedback_keeps_scores_in_range
           true 3 (mkBody (Some "A") (Some (5 # 1)%Q) None)
           (mkStorage [] [FeedbackEntry.mk 1 "B" (1 # 1)%Q None 0])).
  intros f [<-|[]]. simpl. split; discriminate.
Defined.

(** X7.  What [create_feedback] stores, the read routes return: after a
    request, [get_all_feedback] answers the old rows followed by the new
    one, and [get_feedback_by_product] for the request's product id
    answers that product's old rows followed by the new one, never 404. *)
Theorem create_feedback_then_read :
  forall (autoflush : bool) (now later : nat) (feedback : FeedbackCreate.t)
         (db : Storage),
    let row := feedback_row now feedback db in
    let db' := snd (serve (create_feedback autoflush now feedback) db) in
    let pid := FeedbackCreate.product_id feedback in
    fst (serve (create_feedback autoflush now feedback) db) = OK row
    /\ serve (get_all_feedback autoflush later) db'
       = (OK (feedback_entries db ++ [row]), db')
    /\ serve (get_feedback_by_product autoflush later pid) db'
       = (OK (feedback_of pid (feedback_entries db) ++ [row]), db').
Proof.
  intros autoflush now later feedback db row db' pid.
  unfold db'. rewrite serve_create_feedback. cbn [fst snd].
  split; [reflexivity|]. split.
  - unfold serve. rewrite get_all_feedback_fresh. reflexivity.
  - unfold serve. rewrite get_feedback_by_product_fresh.
    cbn [feedback_entries]. unfold feedback_of. rewrite filter_app.
    simpl. unfold pid. rewrite String.eqb_refl.
    destruct (filter _ (feedback_entries db)); reflexivity.
Qed.

(** X8.  Two requests, one after the other, for the same product id that
    storage does not know: the first creates the Product row, the second
    finds it, so one Product row and two feedback rows are added. *)
Theorem create_feedback_twice_one_product :
  forall (autoflush : bool) (t1 t2 : nat) (first second : FeedbackCreate.t)
         (db : Storage),
    FeedbackCreate.product_id second = FeedbackCreate.product_id first ->
    ~ In (FeedbackCreate.product_id first)
         (map Product.product_id (products db)) ->
    let db1 := snd (serve (create_feedback autoflush t1 first) db) in
    let db2 := snd (serve (create_feedback autoflush t2 second) db1) in
    products db2
    = products db ++ [product_row t1 (FeedbackCreate.product_id first) db]
    /\ feedback_entries db2
       = feedback_entries db
         ++ [feedback_row t1 first db; feedback_row t2 second db1].
Proof.
  intros autoflush t1 t2 first second db Hsame Hnew db1 db2.
  apply no_product_row in Hnew.
  unfold db2, db1. rewrite !serve_create_feedback. cbn [snd products].
  rewrite Hsame, Hnew.
  rewrite (has_product_id_snoc_same
             (FeedbackCreate.product_id first) (products db)
             (product_row t1 (FeedbackCreate.product_id first) db) eq_refl).
  cbn [feedback_entries]. rewrite <- app_assoc. split; reflexivity.
Qed.

Lemma create_feedback_twice_one_product_witness :
  let db1 := snd (serve (create_feedback true 1 (FeedbackCreate.mk "A" (4 # 1)%Q None))
                        empty_storage) in
  let db2 := snd (serve (create_feedback true 2 (FeedbackCreate.mk "A" (5 # 1)%Q None))
                        db1) in
  products db2 = [Product.mk 1 "A" "Product A" 1]
  /\ feedback_entries db2
     = [FeedbackEntry.mk 1 "A" (4 # 1)%Q None 1;
        FeedbackEntry.mk 2 "A" (5 # 1)%Q None 2].
Proof.
  apply (create_feedback_twice_one_product
           true 1 2 (FeedbackCreate.mk "A" (4 # 1)%Q None)
           (FeedbackCreate.mk "A" (5 # 1)%Q None) empty_storage).
  - reflexivity.
  - simpl. intros [].
Defined.

(* ===================================================================== *)
(** ** More on the aggregate query *)
(* ===================================================================== *)





(* ===================================================================== *)
(** ** The products an import creates *)
(* ===================================================================== *)

Lemma unknown_product_ids_In table df pid :
  In pid (unknown_product_ids table df)
  <-> In pid (map row_product_id df) /\ has_product_id pid table = false.
Proof.
  unfold unknown_product_ids. rewrite filter_In, negb_true_iff. reflexivity.
Qed.

Section CreatedProducts.

Variable now : nat.

(** The rows a run of INSERTs adds for the pending products. *)
Lemma insert_products_rows ps : forall table done rows,
  insert_products now table done ps = inr rows ->
  exists added,
    rows = done ++ added
    /\ map Product.product_id added = map np_product_id ps
    /\ map Product.name added = map np_name ps
    /\ Forall (fun p => Product.created_at p = now) added
    /\ (forall p, In p added ->
                  ~ In (Product.product_id p)
                       (map Product.product_id (table ++ done)))
    /\ NoDup (map Product.product_id added)
    /\ (NoDup (map Product.id (table ++ done)) ->
        NoDup (map Product.id (table ++ done ++ added))).
Proof.
  induction ps as [|p ps IH]; intros table done rows; simpl.
  - intros H. inversion H; subst. exists []. rewrite !app_nil_r.
    repeat split; try constructor. intros _ []. intros ND; exact ND.
  - unfold insert_product.
    destruct (has_product_id (np_product_id p) (table ++ done)) eqn:E;
      [discriminate|].
    set (row := Product.mk (next_id (map Product.id (table ++ done)))
                           (np_product_id p) (np_name p) now).
    intros H. destruct (IH table (done ++ [row]) rows H)
      as (added & -> & Hids & Hnames & Hnow & Hnew & ND & Hkeys).
    exists (row :: added). rewrite <- app_assoc. simpl.
    split; [reflexivity|]. split; [f_equal; exact Hids|].
    split; [f_equal; exact Hnames|]. split; [constructor; [reflexivity|exact Hnow]|].
    split; [|split].
    + intros p' [<-|Hp'].
      * simpl. intros Hin. apply has_product_id_In in Hin. congruence.
      * intros Hin. apply (Hnew p' Hp'). rewrite app_assoc, map_app.
        apply in_or_app. left. exact Hin.
    + constructor; [|exact ND]. intros Hin. apply in_map_iff in Hin.
      destruct Hin as (p' & Heq & Hp'). apply (Hnew p' Hp').
      rewrite Heq, app_assoc, map_app. apply in_or_app. right. left. reflexivity.
    + intros NDk.
      assert (NDk' : NoDup (map Product.id (table ++ done ++ [row]))).
      { rewrite app_assoc. apply NoDup_map_snoc; [exact NDk|].
        apply next_id_fresh. }
      specialize (Hkeys NDk'). rewrite <- app_assoc in Hkeys. exact Hkeys.
Qed.

(** The rows insert-if-absent adds for a data frame. *)
Lemma upsert_products_extends df : forall table,
  exists added,
    upsert_products now table df = table ++ added
    /\ created_for now table df added.
Proof.
  unfold upsert_products, created_for.
  induction df as [|row df IH]; intros table.
  - exists []. simpl. rewrite app_nil_r. split; [reflexivity|].
    split; [constructor|]. split; [|split; [constructor|intros ND; exact ND]].
    intros pid. unfold unknown_product_ids. simpl. tauto.
  - simpl. unfold upsert_product at 2.
    destruct (has_product_id (row_product_id row) table) eqn:E.
    + destruct (IH table) as (added & -> & ND & Hids & Hauto & Hkeys).
      exists added. split; [reflexivity|]. split; [exact ND|].
      split; [|split; assumption].
      intros pid. rewrite Hids, !unknown_product_ids_In. simpl.
      split; [tauto|]. intros [[<-|H] Hno]; [congruence|tauto].
    + set (p := Product.mk (next_id (map Product.id table)) (row_product_id row)
                           ("Product " ++ row_product_id row) now).
      destruct (IH (table ++ [p])) as (added & -> & ND & Hids & Hauto & Hkeys).
      exists (p :: added). rewrite <- app_assoc. split; [reflexivity|].
      assert (Hnotin : ~ In (row_product_id row) (map Product.product_id added)).
      { intros Hin. apply Hids, unknown_product_ids_In in Hin.
        destruct Hin as [_ Hno].
        rewrite (has_product_id_snoc_same (row_product_id row) table p eq_refl)
          in Hno.
        discriminate. }
      split; [simpl; constructor; assumption|]. split; [|split].
      * intros pid. simpl. rewrite Hids, !unknown_product_ids_In. simpl.
        rewrite has_product_id_app. simpl. rewrite orb_false_r.
        destruct (String.eqb_spec (row_product_id row) pid) as [Heq|N].
        -- subst pid. rewrite orb_true_r. split; [intros _; split; [left; reflexivity|exact E]|].
           intros _. left. reflexivity.
        -- rewrite orb_false_r. split.
           ++ intros [C|[H1 H2]]; [contradiction|]. split; [right|]; assumption.
           ++ intros [[C|H1] H2]; [contradiction|]. right. split; assumption.
      * constructor; [split; reflexivity|exact Hauto].
      * intros NDk.
        assert (NDk' : NoDup (map Product.id (table ++ [p]))).
        { apply NoDup_map_snoc; [exact NDk|apply next_id_fresh]. }
        specialize (Hkeys NDk'). rewrite <- app_assoc in Hkeys. exact Hkeys.
Qed.

Lemma staged_rows_created_for table df rows :
  insert_products now table [] (staged_without_flush table df) = inr rows ->
  created_for now table df rows.
Proof.
  intros H. destruct (insert_products_rows _ _ _ _ H)
    as (added & -> & Hids & Hnames & Hnow & _ & ND & Hkeys).
  simpl. unfold created_for. split; [exact ND|]. split; [|split].
  - intros pid. rewrite Hids. unfold staged_without_flush.
    rewrite map_map. simpl. rewrite map_id. reflexivity.
  - unfold staged_without_flush in Hids, Hnames. rewrite map_map in Hids, Hnames.
    simpl in Hids, Hnames. rewrite map_id in Hids.
    clear -Hids Hnames Hnow. revert Hids Hnames Hnow.
    generalize (unknown_product_ids table df) as ids.
    induction added as [|p added IH]; intros ids Hids Hnames Hnow; [constructor|].
    destruct ids as [|pid ids]; [discriminate|].
    simpl in Hids, Hnames.
    injection Hids as Hp Hids'. injection Hnames as Hn Hnames'.
    apply Forall_cons_iff in Hnow. destruct Hnow as [Hc Hnow'].
    constructor; [split; [rewrite Hp; exact Hn|exact Hc]|].
    apply (IH ids); assumption.
  - intros NDk. rewrite app_nil_r in Hkeys. apply Hkeys, NDk.
Qed.

End CreatedProducts.

(* ===================================================================== *)
(** ** What a successful import leaves in storage *)
(* ===================================================================== *)

Lemma insert_feedbacks_keys now fs : forall table,
  NoDup (map FeedbackEntry.id table) ->
  NoDup (map FeedbackEntry.id (table ++ insert_feedbacks now table [] fs)).
Proof.
  induction fs as [|f fs IH]; intros table ND.
  - simpl. rewrite app_nil_r. exact ND.
  - rewrite insert_feedbacks_cons.
    change (table ++ insert_feedback now table f
                  :: insert_feedbacks now (table ++ [insert_feedback now table f]) [] fs)
      with (table ++ [insert_feedback now table f]
                  ++ insert_feedbacks now (table ++ [insert_feedback now table f]) [] fs).
    rewrite app_assoc. apply IH.
    apply NoDup_map_snoc; [exact ND|apply next_id_fresh].
Qed.

Lemma upload_csv_data_success_storage
      autoflush now float_of_text file db msg s' :
  upload_csv_data autoflush now float_of_text file (new_session db)
  = (inr msg, s') ->
  exists df fs added,
    file = inr df
    /\ coerce_rows float_of_text df = inr fs
    /\ msg = imported_message (List.length df)
    /\ s' = (let db' := mkStorage
                          (products db ++ added)
                          (feedback_entries db
                           ++ insert_feedbacks now (feedback_entries db) [] fs) in
             mkSession db' [] [] [] [] [db'])
    /\ created_for now (products db) df added.
Proof.
  intros Hrun. destruct file as [e|df].
  - rewrite upload_csv_data_read_error in Hrun. discriminate.
  - exists df. destruct (coerce_rows float_of_text df) as [e|fs] eqn:Ec.
    + destruct (upload_csv_data_coerce_error now float_of_text autoflush df e db Ec)
        as (s1 & Hfail & _).
      rewrite Hfail in Hrun. discriminate.
    + exists fs. destruct autoflush.
      * rewrite (upload_csv_data_autoflush now float_of_text df fs db Ec) in Hrun.
        cbv zeta in Hrun.
        destruct (upsert_products_extends now df (products db))
          as (added & Hext & Hcreated).
        rewrite Hext in Hrun. inversion Hrun; subst.
        exists added. repeat split; try reflexivity; apply Hcreated.
      * rewrite (upload_csv_data_without_flush now float_of_text df fs db Ec)
          in Hrun.
        destruct (insert_products now (products db) []
                    (staged_without_flush (products db) df)) as [e|ps] eqn:Ei;
          [discriminate|].
        cbv zeta in Hrun. inversion Hrun; subst.
        exists ps. pose proof (staged_rows_created_for now _ _ _ Ei) as Hcreated.
        repeat split; try reflexivity; apply Hcreated.
Qed.

Lemma serve_upload_csv_data_success
      autoflush now float_of_text file db msg db' :
  serve (upload_csv_data autoflush now float_of_text file) db = (OK msg, db') ->
  exists df fs added,
    file = inr df
    /\ coerce_rows float_of_text df = inr fs
    /\ msg = imported_message (List.length df)
    /\ db' = mkStorage
               (products db ++ added)
               (feedback_entries db
                ++ insert_feedbacks now (feedback_entries db) [] fs)
    /\ created_for now (products db) df added.
Proof.
  unfold serve.
  destruct (upload_csv_data autoflush now float_of_text file (new_session db))
    as [[e|m] s'] eqn:Hrun.
  - destruct e; discriminate.
  - intros H. inversion H; subst.
    destruct (upload_csv_data_success_storage _ _ _ _ _ _ _ Hrun)
      as (df & fs & added & Hfile & Hc & Hmsg & -> & Hcreated).
    exists df, fs, added. repeat split; try assumption; apply Hcreated.
Qed.

Lemma serve_upload_csv_data_failure
      autoflush now float_of_text file db :
  (exists msg db', serve (upload_csv_data autoflush now float_of_text file) db
                   = (OK msg, db'))
  \/ snd (serve (upload_csv_data autoflush now float_of_text file) db) = db.
Proof.
  unfold serve.
  destruct (upload_csv_data_outcome autoflush now float_of_text file db)
    as [(df & fs & db' & _ & _ & -> & _)|(e & s' & -> & [Hs _])].
  - left. eexists. eexists. reflexivity.
  - right. simpl. exact Hs.
Qed.

(** X11.  A file without data rows is imported successfully: the message
    counts 0 entries, storage is unchanged, and the session still commits
    once. *)
Theorem upload_csv_data_empty_frame :
  forall (autoflush : bool) (now : nat)
         (float_of_text : string -> Exception + Q) (db : Storage),
    upload_csv_data autoflush now float_of_text (inr []) (new_session db)
    = (inr "Successfully imported 0 feedback entries",
       mkSession db [] [] [] [] [db])
    /\ serve (upload_csv_data autoflush now float_of_text (inr [])) db
       = (OK "Successfully imported 0 feedback entries", db).
Proof.
  intros autoflush now float_of_text db.
  assert (Run : upload_csv_data autoflush now float_of_text (inr [])
                                (new_session db)
                = (inr "Successfully imported 0 feedback entries",
                   mkSession db [] [] [] [] [db])).
  { destruct autoflush.
    - rewrite (upload_csv_data_autoflush now float_of_text [] [] db eq_refl).
      unfold upsert_products. simpl. rewrite app_nil_r. destruct db; reflexivity.
    - rewrite (upload_csv_data_without_flush now float_of_text [] [] db eq_refl).
      simpl. rewrite !app_nil_r. destruct db; reflexivity. }
  split; [exact Run|]. unfold serve. rewrite Run. reflexivity.
Qed.

(** X12.  The products a successful import creates: the products table
    keeps its rows and gains exactly one row for each product id of the
    file that storage did not know, named "Product " followed by the id
    and stamped by the storage clock, with a primary key not in use. *)
Theorem upload_csv_data_creates_unknown_products :
  forall (autoflush : bool) (now : nat)
         (float_of_text : string -> Exception + Q)
         (file : Exception + list Row) (db db' : Storage) (msg : string),
    serve (upload_csv_data autoflush now float_of_text file) db = (OK msg, db') ->
    exists df added,
      file = inr df
      /\ products db' = products db ++ added
      /\ NoDup (map Product.product_id added)
      /\ (forall pid,
             In pid (map Product.product_id added)
             <-> In pid (map row_product_id df)
                 /\ ~ In pid (map Product.product_id (products db)))
      /\ Forall (auto_created now) added
      /\ (NoDup (map Product.id (products db)) ->
          NoDup (map Product.id (products db')))
      /\ (forall row, In row df ->
                      In (row_product_id row)
                         (map Product.product_id (products db'))).
Proof.
  intros autoflush now float_of_text file db db' msg Hok.
  destruct (serve_upload_csv_data_success _ _ _ _ _ _ _ Hok)
    as (df & fs & added & Hfile & _ & _ & -> & ND & Hids & Hauto & Hkeys).
  assert (Hiff : forall pid,
             In pid (map Product.product_id added)
             <-> In pid (map row_product_id df)
                 /\ ~ In pid (map Product.product_id (products db))).
  { intros pid. rewrite Hids, unknown_product_ids_In, <- has_product_id_In.
    destruct (has_product_id pid (products db)); split; intros [A B]; split;
      try assumption; try discriminate; try reflexivity.
    contradiction B. reflexivity. }
  exists df, added. cbn [products].
  split; [exact Hfile|]. split; [reflexivity|]. split; [exact ND|].
  split; [exact Hiff|]. split; [exact Hauto|]. split; [exact Hkeys|].
  intros row Hrow. rewrite map_app. apply in_or_app.
    destruct (in_dec string_dec (row_product_id row)
                     (map Product.product_id (products db))) as [I|NI].
  - left. exact I.
  - right. apply Hiff. split; [apply in_map, Hrow|exact NI].
Qed.

Lemma upload_csv_data_creates_unknown_products_witness :
  exists df added,
    @inr Exception (list Row)
         [mkRow "A" (NumCell (3 # 1)%Q) None; mkRow "B" (NumCell (5 # 1)%Q) None;
          mkRow "B" (NumCell (4 # 1)%Q) None] = inr df
    /\ products (mkStorage [Product.mk 1 "A" "Widget" 0; Product.mk 2 "B" "Product B" 7]
                           [FeedbackEntry.mk 1 "A" (3 # 1)%Q None 7;
                            FeedbackEntry.mk 2 "B" (5 # 1)%Q None 7;
                            FeedbackEntry.mk 3 "B" (4 # 1)%Q None 7])
       = products (mkStorage [Product.mk 1 "A" "Widget" 0] []) ++ added
    /\ NoDup (map Product.product_id added)
    /\ (forall pid,
           In pid (map Product.product_id added)
           <-> In pid (map row_product_id df)
               /\ ~ In pid (map Product.product_id
                              (products (mkStorage [Product.mk 1 "A" "Widget" 0] []))))
    /\ Forall (auto_created 7) added
    /\ (NoDup (map Product.id (products (mkStorage [Product.mk 1 "A" "Widget" 0] []))) ->
        NoDup (map Product.id
                 (products (mkStorage
                              [Product.mk 1 "A" "Widget" 0; Product.mk 2 "B" "Product B" 7]
                              [FeedbackEntry.mk 1 "A" (3 # 1)%Q None 7;
                               FeedbackEntry.mk 2 "B" (5 # 1)%Q None 7;
                               FeedbackEntry.mk 3 "B" (4 # 1)%Q None 7]))))
    /\ (forall row, In row df ->
                    In (row_product_id row)
                       (map Product.product_id
                          (products (mkStorage
                                       [Product.mk 1 "A" "Widget" 0;
                                        Product.mk 2 "B" "Product B" 7]
                                       [FeedbackEntry.mk 1 "A" (3 # 1)%Q None 7;
                                        FeedbackEntry.mk 2 "B" (5 # 1)%Q None 7;
                                        FeedbackEntry.mk 3 "B" (4 # 1)%Q None 7])))).
Proof.
  apply (upload_csv_data_creates_unknown_products
           true 7 (fun s => inl (ValueError s))
           (inr [mkRow "A" (NumCell (3 # 1)%Q) None; mkRow "B" (NumCell (5 # 1)%Q) None;
                 mkRow "B" (NumCell (4 # 1)%Q) None])
           (mkStorage [Product.mk 1 "A" "Widget" 0] [])
           (mkStorage [Product.mk 1 "A" "Widget" 0; Product.mk 2 "B" "Product B" 7]
                      [FeedbackEntry.mk 1 "A" (3 # 1)%Q None 7;
                       FeedbackEntry.mk 2 "B" (5 # 1)%Q None 7;
                       FeedbackEntry.mk 3 "B" (4 # 1)%Q None 7])
           "Successfully imported 3 feedback entries").
  vm_compute. reflexivity.
Defined.

Lemma coerce_rows_product_ids float_of_text df : forall fs,
  coerce_rows float_of_text df = inr fs ->
  map nf_product_id fs = map row_product_id df.
Proof.
  induction df as [|row df IH]; simpl; intros fs H.
  - inversion H. reflexivity.
  - destruct (float_result float_of_text (row_score row)); [discriminate|].
    destruct (coerce_rows float_of_text df) as [e|fs']; [discriminate|].
    inversion H. simpl. rewrite (IH fs' eq_refl). reflexivity.
Qed.

Lemma insert_feedbacks_product_ids now fs : forall table,
  map FeedbackEntry.product_id (insert_feedbacks now table [] fs)
  = map nf_product_id fs.
Proof.
  induction fs as [|f fs IH]; intros table; [reflexivity|].
  rewrite insert_feedbacks_cons. simpl. rewrite IH. reflexivity.
Qed.

Lemma Forall2_In_left {A B} (R : A -> B -> Prop) l l' a :
  Forall2 R l l' -> In a l -> exists b, In b l' /\ R a b.
Proof.
  induction 1 as [|x y l l' Hxy _ IH]; intros Ha; [destruct Ha|].
  destruct Ha as [<-|Ha].
  - exists y. split; [left; reflexivity|exact Hxy].
  - destruct (IH Ha) as (b & Hb & Hr). exists b. split; [right|]; assumption.
Qed.

(** X13.  The import keeps every feedback row attached to a product: when
    each stored row names a product that has a Product row, so does each
    row after an import, whatever the file and whether the import
    succeeds or fails. *)
Theorem upload_csv_data_keeps_referential_integrity :
  forall (autoflush : bool) (now : nat)
         (float_of_text : string -> Exception + Q)
         (file : Exception + list Row) (db : Storage),
    referential_integrity db ->
    referential_integrity
      (snd (serve (upload_csv_data autoflush now float_of_text file) db)).
Proof.
  intros autoflush now float_of_text file db RI.
  destruct (serve_upload_csv_data_failure autoflush now float_of_text file db)
    as [(msg & db' & Hok)|Hsame]; [|rewrite Hsame; exact RI].
  rewrite Hok. cbn [snd].
  destruct (serve_upload_csv_data_success _ _ _ _ _ _ _ Hok)
    as (df & fs & added & _ & Hc & _ & -> & _ & Hids & _).
  unfold referential_integrity. cbn [products feedback_entries].
  intros f Hf. rewrite map_app. apply in_or_app.
  apply in_app_or in Hf. destruct Hf as [Hf|Hf]; [left; apply RI, Hf|].
  apply (in_map FeedbackEntry.product_id) in Hf.
  rewrite insert_feedbacks_product_ids, (coerce_rows_product_ids _ _ _ Hc) in Hf.
  destruct (has_product_id (FeedbackEntry.product_id f) (products db)) eqn:E.
  - left. apply has_product_id_In, E.
  - right. apply Hids, unknown_product_ids_In. split; assumption.
Qed.

Lemma upload_csv_data_keeps_referential_integrity_witness :
  referential_integrity
    (snd (serve (upload_csv_data false 7 (fun s => inl (ValueError s))
                   (inr [mkRow "B" (NumCell (5 # 1)%Q) None]))
                (mkStorage [Product.mk 1 "A" "Product A" 0]
                           [FeedbackEntry.mk 1 "A" (4 # 1)%Q None 0]))).
Proof.
  apply (upload_csv_data_keeps_referential_integrity
           false 7 (fun s => inl (ValueError s))
           (inr [mkRow "B" (NumCell (5 # 1)%Q) None])
           (mkStorage [Product.mk 1 "A" "Product A" 0]
                      [FeedbackEntry.mk 1 "A" (4 # 1)%Q None 0])).
  intros f [<-|[]]. simpl. left. reflexivity.
Defined.

(** X14.  The import never reuses a primary key: when the keys of each
    table are pairwise distinct before an import, they are after it. *)
Theorem upload_csv_data_keeps_distinct_primary_keys :
  forall (autoflush : bool) (now : nat)
         (float_of_text : string -> Exception + Q)
         (file : Exception + list Row) (db : Storage),
    distinct_primary_keys db ->
    distinct_primary_keys
      (snd (serve (upload_csv_data autoflush now float_of_text file) db)).
Proof.
  intros autoflush now float_of_text file db [NP NF].
  destruct (serve_upload_csv_data_failure autoflush now float_of_text file db)
    as [(msg & db' & Hok)|Hsame]; [|rewrite Hsame; split; assumption].
  rewrite Hok. cbn [snd].
  destruct (serve_upload_csv_data_success _ _ _ _ _ _ _ Hok)
    as (df & fs & added & _ & _ & _ & -> & _ & _ & _ & Hkeys).
  split; cbn [products feedback_entries].
  - apply Hkeys, NP.
  - apply insert_feedbacks_keys, NF.
Qed.

Lemma upload_csv_data_keeps_distinct_primary_keys_witness :
  distinct_primary_keys
    (snd (serve (upload_csv_data true 7 (fun s => inl (ValueError s))
                   (inr [mkRow "B" (NumCell (5 # 1)%Q) None;
                         mkRow "C" (NumCell (2 # 1)%Q) None]))
                (mkStorage [Product.mk 3 "A" "Product A" 0]
                           [FeedbackEntry.mk 5 "A" (4 # 1)%Q None 0]))).
Proof.
  apply (upload_csv_data_keeps_distinct_primary_keys
           true 7 (fun s => inl (ValueError s))
           (inr [mkRow "B" (NumCell (5 # 1)%Q) None;
                 mkRow "C" (NumCell (2 # 1)%Q) None])
           (mkStorage [Product.mk 3 "A" "Product A" 0]
                      [FeedbackEntry.mk 5 "A" (4 # 1)%Q None 0])).
  split; simpl; repeat constructor; intros [].
Defined.

(** X15.  The import never makes a second Product row for a product id,
    whether queries flush or not and whether it succeeds or fails. *)
Theorem upload_csv_data_never_duplicates_a_product :
  forall (autoflush : bool) (now : nat)
         (float_of_text : string -> Exception + Q)
         (file : Exception + list Row) (db : Storage),
    unique_product_ids db ->
    unique_product_ids
      (snd (serve (upload_csv_data autoflush now float_of_text file) db)).
Proof.
  intros autoflush now float_of_text file db ND.
  apply upload_csv_data_keeps_unique_product_ids, ND.
Qed.

Lemma upload_csv_data_never_duplicates_a_product_witness :
  unique_product_ids
    (snd (serve (upload_csv_data true 7 (fun s => inl (ValueError s))
                   (inr [mkRow "B" (NumCell (5 # 1)%Q) None;
                         mkRow "A" (NumCell (2 # 1)%Q) None;
                         mkRow "B" (NumCell (1 # 1)%Q) None]))
                (mkStorage [Product.mk 1 "A" "Product A" 0] []))).
Proof.
  apply (upload_csv_data_never_duplicates_a_product
           true 7 (fun s => inl (ValueError s))
           (inr [mkRow "B" (NumCell (5 # 1)%Q) None;
                 mkRow "A" (NumCell (2 # 1)%Q) None;
                 mkRow "B" (NumCell (1 # 1)%Q) None])
           (mkStorage [Product.mk 1 "A" "Product A" 0] [])).
  unfold unique_product_ids. simpl. repeat constructor. intros [].
Defined.

Lemma created_for_nothing_unknown now table df added :
  created_for now table df added ->
  (forall row, In row df ->
               In (row_product_id row) (map Product.product_id table)) ->
  added = [].
Proof.
  intros (_ & Hids & _) Hknown. destruct added as [|p added]; [reflexivity|].
  exfalso.
  assert (H : In (Product.product_id p) (unknown_product_ids table df))
    by (apply Hids; left; reflexivity).
  apply unknown_product_ids_In in H. destruct H as [Hin Hno].
  apply in_map_iff in Hin. destruct Hin as (row & Heq & Hrow).
  specialize (Hknown row Hrow). rewrite Heq in Hknown.
  apply has_product_id_In in Hknown. congruence.
Qed.

(** X16.  Importing the same file again after a successful import
    succeeds again, whether queries flush or not: it creates no Product
    row (every product of the file is known by then) and appends one more
    feedback row per data row, so the feedback of the file is stored
    twice. *)
Theorem upload_csv_data_twice :
  forall (autoflush : bool) (t1 t2 : nat)
         (float_of_text : string -> Exception + Q)
         (df : list Row) (db db1 : Storage) (msg : string),
    serve (upload_csv_data autoflush t1 float_of_text (inr df)) db
    = (OK msg, db1) ->
    exists db2 again,
      serve (upload_csv_data autoflush t2 float_of_text (inr df)) db1
      = (OK msg, db2)
      /\ products db2 = products db1
      /\ feedback_entries db2 = feedback_entries db1 ++ again
      /\ Forall2 (imported_from t2 float_of_text) df again
      /\ List.length (feedback_entries db2)
         = List.length (feedback_entries db) + 2 * List.length df.
Proof.
  intros autoflush t1 t2 float_of_text df db db1 msg Hfirst.
  destruct (serve_upload_csv_data_success _ _ _ _ _ _ _ Hfirst)
    as (df' & fs & added & Hfile & Hc & Hmsg & Hdb1 & _ & Hids & _).
  inversion Hfile; subst df'. clear Hfile.
  assert (Hknown : forall row, In row df ->
             In (row_product_id row) (map Product.product_id (products db1))).
  { intros row Hrow. rewrite Hdb1. cbn [products]. rewrite map_app.
    apply in_or_app.
    destruct (has_product_id (row_product_id row) (products db)) eqn:E.
    - left. apply has_product_id_In, E.
    - right. apply Hids, unknown_product_ids_In.
      split; [apply in_map, Hrow|exact E]. }
  destruct (upload_csv_data_succeeds autoflush t2 float_of_text df fs db1 Hc)
    as (db2 & Hrun & Hfb).
  { right. replace (unknown_product_ids (products db1) df) with (@nil string);
      [constructor|].
    symmetry. apply filter_nil_iff. intros pid Hpid.
    apply in_map_iff in Hpid. destruct Hpid as (row & <- & Hrow).
    apply negb_false_iff, has_product_id_In, Hknown, Hrow. }
  assert (Hsecond : serve (upload_csv_data autoflush t2 float_of_text (inr df)) db1
                    = (OK msg, db2)).
  { unfold serve. rewrite Hrun, Hmsg. reflexivity. }
  destruct (serve_upload_csv_data_success _ _ _ _ _ _ _ Hsecond)
    as (df' & fs' & added' & Hfile & _ & _ & Hdb2 & Hcreated).
  inversion Hfile; subst df'. clear Hfile.
  rewrite (created_for_nothing_unknown _ _ _ _ Hcreated Hknown), app_nil_r in Hdb2.
  exists db2, (insert_feedbacks t2 (feedback_entries db1) [] fs).
  split; [exact Hsecond|]. split; [rewrite Hdb2; reflexivity|].
  split; [exact Hfb|]. split; [apply coerce_rows_imported, Hc|].
  rewrite Hfb, Hdb1. cbn [feedback_entries].
  rewrite !length_app, !insert_feedbacks_length, (coerce_rows_length _ _ _ Hc).
  lia.
Qed.

Lemma upload_csv_data_twice_witness :
  exists db2 again,
    serve (upload_csv_data false 9 (fun s => inl (ValueError s))
             (inr [mkRow "A" (NumCell (4 # 1)%Q) None]))
          (mkStorage [Product.mk 1 "A" "Product A" 7]
                     [FeedbackEntry.mk 1 "A" (4 # 1)%Q None 7])
    = (OK "Successfully imported 1 feedback entries", db2)
    /\ products db2
       = products (mkStorage [Product.mk 1 "A" "Product A" 7]
                             [FeedbackEntry.mk 1 "A" (4 # 1)%Q None 7])
    /\ feedback_entries db2
       = feedback_entries (mkStorage [Product.mk 1 "A" "Product A" 7]
                                     [FeedbackEntry.mk 1 "A" (4 # 1)%Q None 7])
         ++ again
    /\ Forall2 (imported_from 9 (fun s => inl (ValueError s)))
               [mkRow "A" (NumCell (4 # 1)%Q) None] again
    /\ List.length (feedback_entries db2)
       = List.length (feedback_entries empty_storage)
         + 2 * List.length [mkRow "A" (NumCell (4 # 1)%Q) None].
Proof.
  apply (upload_csv_data_twice
           false 7 9 (fun s => inl (ValueError s))
           [mkRow "A" (NumCell (4 # 1)%Q) None] empty_storage
           (mkStorage [Product.mk 1 "A" "Product A" 7]
                      [FeedbackEntry.mk 1 "A" (4 # 1)%Q None 7])
           "Successfully imported 1 feedback entries").
  vm_compute. reflexivity.
Defined.

(** X17.  What an import stores, the read routes return: after a
    successful import [get_all_feedback] answers the old rows followed by
    one row per data row, and [get_feedback_by_product] answers every
    product id of the file with its rows, among them one imported from
    that data row, never with 404. *)
Theorem upload_csv_data_then_read :
  forall (autoflush : bool) (now later : nat)
         (float_of_text : string -> Exception + Q)
         (df : list Row) (db db' : Storage) (msg : string),
    serve (upload_csv_data autoflush now float_of_text (inr df)) db
    = (OK msg, db') ->
    (exists imported,
        serve (get_all_feedback autoflush later) db'
        = (OK (feedback_entries db ++ imported), db')
        /\ Forall2 (imported_from now float_of_text) df imported)
    /\ (forall row,
           In row df ->
           exists entry,
             serve (get_feedback_by_product autoflush later (row_product_id row)) db'
             = (OK (feedback_of (row_product_id row) (feedback_entries db')), db')
             /\ In entry (feedback_of (row_product_id row) (feedback_entries db'))
             /\ imported_from now float_of_text row entry).
Proof.
  intros autoflush now later float_of_text df db db' msg Hok.
  destruct (serve_upload_csv_data_success _ _ _ _ _ _ _ Hok)
    as (df' & fs & added & Hfile & Hc & _ & Hdb' & _).
  inversion Hfile; subst df'. clear Hfile.
  pose proof (coerce_rows_imported now float_of_text df fs (feedback_entries db) Hc)
    as Himp.
  split.
  - exists (insert_feedbacks now (feedback_entries db) [] fs).
    split; [|exact Himp].
    unfold serve. rewrite get_all_feedback_fresh, Hdb'. reflexivity.
  - intros row Hrow.
    destruct (Forall2_In_left _ _ _ _ Himp Hrow) as (entry & Hentry & Hfrom).
    exists entry.
    assert (Hin : In entry (feedback_of (row_product_id row) (feedback_entries db'))).
    { apply feedback_of_In. split; [|apply Hfrom].
      rewrite Hdb'. cbn [feedback_entries]. apply in_or_app. right. exact Hentry. }
    split; [|split; [exact Hin|exact Hfrom]].
    unfold serve. rewrite get_feedback_by_product_fresh.
    destruct (feedback_of (row_product_id row) (feedback_entries db'));
      [destruct Hin|reflexivity].
Qed.

Lemma upload_csv_data_then_read_witness :
  serve (get_feedback_by_product true 8 "B")
        (mkStorage [Product.mk 1 "B" "Product B" 7]
                   [FeedbackEntry.mk 1 "B" (5 # 1)%Q (Some "fine") 7])
  = (OK [FeedbackEntry.mk 1 "B" (5 # 1)%Q (Some "fine") 7],
     mkStorage [Product.mk 1 "B" "Product B" 7]
               [FeedbackEntry.mk 1 "B" (5 # 1)%Q (Some "fine") 7]).
Proof.
  destruct (proj2 (upload_csv_data_then_read
                     true 7 8 (fun s => inl (ValueError s))
                     [mkRow "B" (NumCell (5 # 1)%Q) (Some "fine")]
                     empty_storage
                     (mkStorage [Product.mk 1 "B" "Product B" 7]
                                [FeedbackEntry.mk 1 "B" (5 # 1)%Q (Some "fine") 7])
                     "Successfully imported 1 feedback entries" eq_refl)
                  (mkRow "B" (NumCell (5 # 1)%Q) (Some "fine"))
                  (or_introl eq_refl)) as (entry & Hserve & _).
  exact Hserve.
Defined.

(* ===================================================================== *)
(** ** Requests that overlap, and requests that follow each other *)
(* ===================================================================== *)

(** X18.  A request overtaken by another one between its lookup and its
    first write is harmed only if the other one created its product: when
    the product id is known after the other request exactly if it was
    known before, the overtaken request is answered, and leaves storage,
    as if it had been served after the other one. *)
Theorem create_feedback_raced_as_if_after :
  forall (autoflush : bool) (now : nat) (feedback : FeedbackCreate.t)
         (other : Storage -> Storage) (db : Storage),
    (In (FeedbackCreate.product_id feedback)
        (map Product.product_id (products db))
     <-> In (FeedbackCreate.product_id feedback)
            (map Product.product_id (products (other db)))) ->
    serve (create_feedback_raced autoflush now feedback other) db
    = serve (create_feedback autoflush now feedback) (other db).
Proof.
  intros autoflush now feedback other db Hsame.
  rewrite <- !has_product_id_In in Hsame.
  rewrite serve_create_feedback.
  unfold serve, create_feedback_raced. unfold bind at 1.
  rewrite create_feedback_lookup_fresh.
  unfold bind at 1. unfold meanwhile at 1.
  cbn [storage flushed_products flushed_feedback new_products new_feedback
       commits new_session].
  fold (new_session (other db)).
  destruct (has_product_id (FeedbackCreate.product_id feedback) (products db))
    eqn:E.
  - destruct (find_product_some _ _ E) as (p & -> & _).
    rewrite (proj1 Hsame eq_refl).
    rewrite create_feedback_write_existing. reflexivity.
  - rewrite (find_product_none _ _ E).
    assert (E' : has_product_id (FeedbackCreate.product_id feedback)
                                (products (other db)) = false).
    { destruct (has_product_id _ (products (other db))) eqn:E'; [|reflexivity].
      pose proof (proj2 Hsame eq_refl). discriminate. }
    rewrite E', (create_feedback_write_new now feedback (other db) E').
    reflexivity.
Qed.

Lemma create_feedback_raced_as_if_after_witness :
  serve (create_feedback_raced true 3 (FeedbackCreate.mk "A" (5 # 1)%Q None)
           (fun db => snd (serve (create_feedback true 2
                                    (FeedbackCreate.mk "B" (4 # 1)%Q None)) db)))
        empty_storage
  = (OK (FeedbackEntry.mk 2 "A" (5 # 1)%Q None 3),
     mkStorage [Product.mk 1 "B" "Product B" 2; Product.mk 2 "A" "Product A" 3]
               [FeedbackEntry.mk 1 "B" (4 # 1)%Q None 2;
                FeedbackEntry.mk 2 "A" (5 # 1)%Q None 3]).
Proof.
  rewrite (create_feedback_raced_as_if_after
             true 3 (FeedbackCreate.mk "A" (5 # 1)%Q None)
             (fun db => snd (serve (create_feedback true 2
                                      (FeedbackCreate.mk "B" (4 # 1)%Q None)) db))
             empty_storage).
  - reflexivity.
  - simpl. split; [intros []|].
    intros [H|[]]. discriminate H.
Defined.


